(** * pvdb-metrics: the database statistics collector

    A shallow embedding of the Go packages [metrics] (the Prometheus
    collector and its nine query functions) and [cmd] (the [Run] function of
    the root command), followed by the properties of the collector contract:
    which descriptors and samples a pass emits, what a failing query turns
    into, and what the process does when the database cannot be reached.

    Go code that acts on the outside world is written in a small state and
    panic monad over a [World]: the world holds what the outside answers
    (pool states, connection attempts, configuration) and the trace of the
    actions the program has performed so far. *)

From Stdlib Require Import ZArith List String Ascii Bool Lia Permutation.
From Stdlib Require Import SpecFloat DecimalString.
Import ListNotations.

Local Open Scope string_scope.
Local Open Scope Z_scope.

(* ===================================================================== *)
(** ** Go values *)
(* ===================================================================== *)

(** A Go [error] value is represented by its message. *)
Definition error := string.

(** [float64] is IEEE 754 binary64: 53 bits of precision, exponent bound
    1024. *)
Definition float64 := spec_float.

Definition prec64 : Z := 53.
Definition emax64 : Z := 1024.

(** The conversion [float64(n)] of a Go [int]: round to nearest, ties to
    even. *)
Definition float64_of_int (n : Z) : float64 :=
  binary_normalize prec64 emax64 n 0 false.

(** The constant [0] at type [float64]. *)
Definition float64_zero : float64 := S754_zero false.

(** [x >= y] on [float64]; false as soon as one side is NaN. *)
Definition float64_ge (x y : float64) : bool := SFleb y x.

(** [fmt.Sprintf("%d", n)]. *)
Definition sprintf_d (n : Z) : string := NilZero.string_of_int (Z.to_int n).

(* ===================================================================== *)
(** ** The libraries the program talks to *)
(* ===================================================================== *)

(** *** zerolog: one record per [Msg] call *)
Module Zerolog.

Inductive Level := InfoLevel | ErrorLevel.

Record Record_ := mkRecord {
  level : Level;
  attached : option error;       (* .Err(err) *)
  ints : list (string * Z);      (* .Int(key, value) *)
  message : string               (* .Msg(msg) *)
}.

End Zerolog.

(** *** pgxpool: what a pool answers *)
Module Pgxpool.

(** The outcome of [conn.QueryRow(ctx, sql).Scan(&cnt)]: either the
    scanned integer, or the error that [Scan] reports (the connection
    could not be acquired, the query timed out, the row could not be
    decoded into an [int], ...). *)
Inductive ScanResult :=
| Scanned (cnt : Z)
| ScanFailed (e : error).

(** The state of a pool, as far as this program can observe it: its answer
    to every SQL text. *)
Definition Pool := string -> ScanResult.

(** A [*pgxpool.Pool]. The handle is taken to designate a pool object;
    the state of that object lives in the world. *)
Definition Ref := nat.

(** A pool on which every query fails with [e]. *)
Definition unreachable (e : error) : Pool := fun _ => ScanFailed e.

End Pgxpool.

(** *** client_golang: descriptors, constant metrics, registry *)
Module Prometheus.

Definition Labels := list (string * string).

Record Desc := mkDesc {
  fqName : string;
  help : string;
  variableLabels : list string;
  constLabels : Labels;
  err : option error
}.

Definition is_alpha (c : ascii) : bool :=
  let n := nat_of_ascii c in
  ((65 <=? n) && (n <=? 90) || (97 <=? n) && (n <=? 122))%nat.

Definition is_digit (c : ascii) : bool :=
  let n := nat_of_ascii c in ((48 <=? n) && (n <=? 57))%nat.

Definition is_name_start (c : ascii) : bool :=
  is_alpha c || Ascii.eqb c "_" || Ascii.eqb c ":".

Fixpoint all_chars (p : ascii -> bool) (s : string) : bool :=
  match s with
  | EmptyString => true
  | String c s' => p c && all_chars p s'
  end.

(** Metric names match [[a-zA-Z_:][a-zA-Z0-9_:]*]. *)
Definition IsValidMetricName (s : string) : bool :=
  match s with
  | EmptyString => false
  | String c s' =>
      is_name_start c && all_chars (fun c => is_name_start c || is_digit c) s'
  end.

(** [NewDesc] never fails; an invalid name is recorded in the descriptor
    and reported when the descriptor is used. *)
Definition NewDesc (fqName help : string) (variableLabels : list string)
    (constLabels : Labels) : Desc :=
  if IsValidMetricName fqName
  then mkDesc fqName help variableLabels constLabels None
  else mkDesc fqName help variableLabels constLabels
         (Some (fqName ++ " is not a valid metric name")).

Inductive ValueType := CounterValue | GaugeValue | UntypedValue.

(** A constant metric: the sample handed to the registry. *)
Record Metric := mkMetric {
  desc : Desc;
  valueType : ValueType;
  value : float64;
  labelValues : list string
}.

Definition NewConstMetric (d : Desc) (t : ValueType) (v : float64)
    (lvs : list string) : Metric + error :=
  match err d with
  | Some e => inr e
  | None =>
      if (List.length lvs =? List.length (variableLabels d))%nat
      then inl (mkMetric d t v lvs)
      else inr "inconsistent label cardinality"
  end.

End Prometheus.

(* ===================================================================== *)
(** ** The world and the monad of Go actions *)
(* ===================================================================== *)

Inductive Event :=
| EvConnect (dsn : string)
| EvQuery (conn : Pgxpool.Ref) (sql : string)
| EvLog (r : Zerolog.Record_)
| EvRegister (descs : list Prometheus.Desc)
| EvHandle (pattern : string) (descs : list Prometheus.Desc) (openMetrics : bool)
| EvListenAndServe (addr : string)
| EvClose (conn : Pgxpool.Ref).

Record World := mkWorld {
  pools : Pgxpool.Ref -> Pgxpool.Pool;            (* state of every pool *)
  dial : string -> Pgxpool.Ref * option error;    (* pgxpool.Connect, by DSN *)
  config_string : string -> string;               (* viper.GetString *)
  config_int : string -> Z;                       (* viper.GetInt *)
  trace : list Event                              (* oldest action first *)
}.

Definition emit (e : Event) (w : World) : World :=
  mkWorld (pools w) (dial w) (config_string w) (config_int w) (trace w ++ [e])%list.

Inductive Outcome (A : Type) :=
| Done (a : A)
| Panicked (msg : string).
Arguments Done {A} a.
Arguments Panicked {A} msg.

Definition Go (A : Type) : Type := World -> Outcome A * World.

Definition ret {A} (a : A) : Go A := fun w => (Done a, w).

Definition bind {A B} (m : Go A) (k : A -> Go B) : Go B :=
  fun w =>
    match m w with
    | (Done a, w') => k a w'
    | (Panicked msg, w') => (Panicked msg, w')
    end.

Definition panic {A} (msg : string) : Go A := fun w => (Panicked msg, w).

(** What the runtime reports when a nil pointer is dereferenced. *)
Definition nil_dereference : string :=
  "runtime error: invalid memory address or nil pointer dereference".

(** [defer d] in front of [body]: [d] runs when [body] is left, whether it
    returned or panicked. A panic of [d] leaves the function panicking,
    in place of whatever [body] came to. *)
Definition defer {A} (d : Go unit) (body : Go A) : Go A :=
  fun w =>
    let '(r, w') := body w in
    match d w' with
    | (Done _, w'') => (r, w'')
    | (Panicked msg, w'') => (Panicked msg, w'')
    end.

Declare Scope go_scope.
Delimit Scope go_scope with go.
Notation "x <- m ;; k" := (bind m (fun x => k))
  (at level 100, m at next level, right associativity) : go_scope.
Notation "' pat <- m ;; k" := (bind m (fun x => match x with pat => k end))
  (at level 100, pat pattern, m at next level, right associativity) : go_scope.
Notation "m ;; k" := (bind m (fun _ => k))
  (at level 100, right associativity) : go_scope.
Local Open Scope go_scope.

(** A channel, seen from the sending side: the values sent so far. *)
Definition Chan (T : Type) := list T.

(** [ch <- x]. *)
Definition send {T} (ch : Chan T) (x : T) : Go (Chan T) := ret (ch ++ [x])%list.

(** [log.Error().Err(err).Msg(msg)]. *)
Definition log_error (e : error) (msg : string) : Go unit :=
  fun w => (Done tt,
            emit (EvLog (Zerolog.mkRecord Zerolog.ErrorLevel (Some e) [] msg)) w).

(** [log.Info().Int(key, n).Msg(msg)]. *)
Definition log_info_int (key : string) (n : Z) (msg : string) : Go unit :=
  fun w => (Done tt,
            emit (EvLog (Zerolog.mkRecord Zerolog.InfoLevel None [(key, n)] msg)) w).

(** [conn.QueryRow(context.Background(), sql).Scan(&cnt)]: the query is sent
    to the pool (and shows in the trace); the pool's state decides the
    answer. Queries only read: the pool states are left as they are. *)
Definition QueryRowScan (conn : Pgxpool.Ref) (sql : string) : Go Pgxpool.ScanResult :=
  fun w => (Done (pools w conn sql), emit (EvQuery conn sql) w).

(** [prometheus.MustNewConstMetric]: panics where [NewConstMetric] returns
    an error. *)
Definition MustNewConstMetric (d : Prometheus.Desc) (t : Prometheus.ValueType)
    (v : float64) : Go Prometheus.Metric :=
  match Prometheus.NewConstMetric d t v [] with
  | inl m => ret m
  | inr e => panic e
  end.

(* ===================================================================== *)
(** ** Package metrics *)
(* ===================================================================== *)
Module Metrics.

Import Prometheus.

Record dbStatsCollector := mkCollector {
  pool : Pgxpool.Ref;

  eodDaily : Desc;
  eodNoFigi : Desc;

  assetsNew : Desc;
  assetsChanged : Desc;
  assetsRetired : Desc;
  assetsNoCusip : Desc;
  assetsNoFigi : Desc;

  seekingAlphaDaily : Desc;
  zacksFinancialDaily : Desc
}.

Definition NewDbStatsCollector (pool : Pgxpool.Ref) : dbStatsCollector :=
  let fqName := fun ns subsystem name : string =>
    ns ++ "_" ++ subsystem ++ "_" ++ name in
  {| pool := pool;

     eodDaily := NewDesc
       (fqName "pvdb" "eod" "daily")
       "Number of EOD quotes downloaded today"
       nil
       nil;

     eodNoFigi := NewDesc
       (fqName "pvdb" "eod" "no_figi")
       "Number of EOD quotes downloaded today"
       nil nil;

     assetsNew := NewDesc
       (fqName "pvdb" "assets" "new")
       "Number of new assets in the last 24 hours"
       nil nil;

     assetsChanged := NewDesc
       (fqName "pvdb" "assets" "changed")
       "Number of changed assets in the last 24 hours"
       nil nil;

     assetsRetired := NewDesc
       (fqName "pvdb" "assets" "retired")
       "Number of retired assets in the last 24 hours"
       nil nil;

     assetsNoCusip := NewDesc
       (fqName "pvdb" "assets" "no_cusip")
       "Number of assets with no CUSIP"
       nil nil;

     assetsNoFigi := NewDesc
       (fqName "pvdb" "assets" "no_figi")
       "Number of assets with no Composite FIGI"
       nil nil;

     seekingAlphaDaily := NewDesc
       (fqName "pvdb" "seeking_alpha" "daily")
       "Number of Seeking Alpha ratings in last 24 hours"
       nil nil;

     zacksFinancialDaily := NewDesc
       (fqName "pvdb" "zacks_finance" "daily")
       "Number of Zacks Finance records in last 24 hours"
       nil nil
  |}.

Definition EodDaily (conn : Pgxpool.Ref) : Go float64 :=
  r <- QueryRowScan conn "SELECT count(*) AS cnt FROM eod WHERE event_date::date = (now() - '1 day'::interval)::date" ;;
  match r with
  | Pgxpool.ScanFailed err =>
      log_error err "failed to retrieve eod daily count" ;;
      ret float64_zero
  | Pgxpool.Scanned cnt => ret (float64_of_int cnt)
  end.

Definition EodNoFigi (conn : Pgxpool.Ref) : Go float64 :=
  r <- QueryRowScan conn "SELECT count(*) AS cnt FROM eod WHERE composite_figi=''" ;;
  match r with
  | Pgxpool.ScanFailed err =>
      log_error err "failed to retrieve eod w/ no figi" ;;
      ret float64_zero
  | Pgxpool.Scanned cnt => ret (float64_of_int cnt)
  end.

Definition AssetsNew (conn : Pgxpool.Ref) : Go float64 :=
  r <- QueryRowScan conn "SELECT count(*) AS cnt FROM assets WHERE new = True" ;;
  match r with
  | Pgxpool.ScanFailed err =>
      log_error err "failed to retrieve num new assets" ;;
      ret float64_zero
  | Pgxpool.Scanned cnt => ret (float64_of_int cnt)
  end.

Definition AssetsChanged (conn : Pgxpool.Ref) : Go float64 :=
  r <- QueryRowScan conn "SELECT count(*) AS cnt FROM assets WHERE updated = True" ;;
  match r with
  | Pgxpool.ScanFailed err =>
      log_error err "failed to retrieve num assets changed" ;;
      ret float64_zero
  | Pgxpool.Scanned cnt => ret (float64_of_int cnt)
  end.

Definition AssetsRetired (conn : Pgxpool.Ref) : Go float64 :=
  r <- QueryRowScan conn "SELECT count(*) AS cnt FROM assets WHERE active = False AND updated = True" ;;
  match r with
  | Pgxpool.ScanFailed err =>
      log_error err "failed to retrieve num assets retired" ;;
      ret float64_zero
  | Pgxpool.Scanned cnt => ret (float64_of_int cnt)
  end.

Definition AssetsNoCUSIP (conn : Pgxpool.Ref) : Go float64 :=
  r <- QueryRowScan conn "SELECT count(*) AS cnt FROM assets WHERE cusip = ''" ;;
  match r with
  | Pgxpool.ScanFailed err =>
      log_error err "failed to retrieve assets w/ no cusip" ;;
      ret float64_zero
  | Pgxpool.Scanned cnt => ret (float64_of_int cnt)
  end.

Definition AssetsNoFigi (conn : Pgxpool.Ref) : Go float64 :=
  r <- QueryRowScan conn "SELECT count(*) AS cnt FROM eod WHERE event_date::date = (now() - '1 day'::interval)::date" ;;
  match r with
  | Pgxpool.ScanFailed err =>
      log_error err "failed to retrieve assets w/ no figi" ;;
      ret float64_zero
  | Pgxpool.Scanned cnt => ret (float64_of_int cnt)
  end.

Definition SeekingAlphaDaily (conn : Pgxpool.Ref) : Go float64 :=
  r <- QueryRowScan conn "SELECT count(*) AS cnt FROM seeking_alpha WHERE event_date::date = now()::date" ;;
  match r with
  | Pgxpool.ScanFailed err =>
      log_error err "failed to retrieve seeking alpha daily count" ;;
      ret float64_zero
  | Pgxpool.Scanned cnt => ret (float64_of_int cnt)
  end.

Definition ZacksFinanceDaily (conn : Pgxpool.Ref) : Go float64 :=
  r <- QueryRowScan conn "SELECT count(*) AS cnt FROM zacks_financials WHERE event_date::date = now()::date" ;;
  match r with
  | Pgxpool.ScanFailed err =>
      log_error err "failed to retrieve zacks finance daily count" ;;
      ret float64_zero
  | Pgxpool.Scanned cnt => ret (float64_of_int cnt)
  end.

(** Describe implements Collector. *)
Definition Describe (c : dbStatsCollector) (ch : Chan Desc) : Go (Chan Desc) :=
  ch <- send ch (eodDaily c) ;;
  ch <- send ch (eodNoFigi c) ;;

  ch <- send ch (assetsNew c) ;;
  ch <- send ch (assetsChanged c) ;;
  ch <- send ch (assetsRetired c) ;;
  ch <- send ch (assetsNoCusip c) ;;
  ch <- send ch (assetsNoFigi c) ;;

  ch <- send ch (seekingAlphaDaily c) ;;
  send ch (zacksFinancialDaily c).

(** Collect implements Collector. *)
Definition Collect (c : dbStatsCollector) (ch : Chan Metric) : Go (Chan Metric) :=
  v <- EodDaily (pool c) ;;
  m <- MustNewConstMetric (eodDaily c) GaugeValue v ;;
  ch <- send ch m ;;
  v <- EodNoFigi (pool c) ;;
  m <- MustNewConstMetric (eodNoFigi c) GaugeValue v ;;
  ch <- send ch m ;;

  v <- AssetsNew (pool c) ;;
  m <- MustNewConstMetric (assetsNew c) GaugeValue v ;;
  ch <- send ch m ;;
  v <- AssetsChanged (pool c) ;;
  m <- MustNewConstMetric (assetsChanged c) GaugeValue v ;;
  ch <- send ch m ;;
  v <- AssetsRetired (pool c) ;;
  m <- MustNewConstMetric (assetsRetired c) GaugeValue v ;;
  ch <- send ch m ;;
  v <- AssetsNoCUSIP (pool c) ;;
  m <- MustNewConstMetric (assetsNoCusip c) GaugeValue v ;;
  ch <- send ch m ;;
  v <- AssetsNoFigi (pool c) ;;
  m <- MustNewConstMetric (assetsNoFigi c) GaugeValue v ;;
  ch <- send ch m ;;

  v <- SeekingAlphaDaily (pool c) ;;
  m <- MustNewConstMetric (seekingAlphaDaily c) GaugeValue v ;;
  ch <- send ch m ;;
  v <- ZacksFinanceDaily (pool c) ;;
  m <- MustNewConstMetric (zacksFinancialDaily c) GaugeValue v ;;
  send ch m.

End Metrics.

(* ===================================================================== *)
(** ** The registry and the HTTP server, as package cmd uses them *)
(* ===================================================================== *)
Module Registry.

Import Prometheus.

(** The [prometheus.Collector] interface. *)
Class Collector (C : Type) := {
  Describe : C -> Chan Desc -> Go (Chan Desc);
  Collect : C -> Chan Metric -> Go (Chan Metric)
}.

(** A registry, as far as registration is concerned: the descriptors it
    has accepted. *)
Definition T := list Desc.

Definition NewRegistry : T := [].

Definition same_dims (d d' : Desc) : bool :=
  String.eqb (help d) (help d') &&
  (if list_eq_dec string_dec (variableLabels d) (variableLabels d')
   then true else false).

(** Descriptors of one name agree on help text and label names. *)
Fixpoint consistent (ds : list Desc) : bool :=
  match ds with
  | [] => true
  | d :: ds' =>
      forallb (fun d' => negb (String.eqb (fqName d) (fqName d')) || same_dims d d') ds'
      && consistent ds'
  end.

Definition invalid (d : Desc) : bool :=
  match err d with Some _ => true | None => false end.

Definition registered (reg : T) (d : Desc) : bool :=
  existsb (fun d' => String.eqb (fqName d) (fqName d')) reg.

(** [reg.MustRegister(c)]: the registry drains [c.Describe] and panics
    when a descriptor is invalid, already registered, or inconsistent
    with another of the same name. *)
Definition MustRegister {C} `{Collector C} (reg : T) (c : C) : Go T :=
  ds <- Describe c [] ;;
  if existsb invalid ds then panic "descriptor is invalid"
  else if existsb (registered reg) ds then panic "descriptor already exists"
  else if negb (consistent (reg ++ ds)) then panic "inconsistent descriptors"
  else fun w => (Done (reg ++ ds)%list, emit (EvRegister ds) w).

(** [http.Handle(pattern, promhttp.HandlerFor(reg, opts))]. *)
Definition Handle (pattern : string) (reg : T) (enableOpenMetrics : bool) : Go unit :=
  fun w => (Done tt, emit (EvHandle pattern reg enableOpenMetrics) w).

(** [http.ListenAndServe(addr, nil)]: the process serves the registered
    routes until the server stops. *)
Definition ListenAndServe (addr : string) : Go unit :=
  fun w => (Done tt, emit (EvListenAndServe addr) w).

End Registry.

#[export] Instance dbStatsCollector_Collector : Registry.Collector Metrics.dbStatsCollector :=
  {| Registry.Describe := Metrics.Describe;
     Registry.Collect := Metrics.Collect |}.

(* ===================================================================== *)
(** ** Package cmd *)
(* ===================================================================== *)
Module Cmd.

(** [viper.GetString(key)] and [viper.GetInt(key)]. *)
Definition GetString (key : string) : Go string :=
  fun w => (Done (config_string w key), w).

Definition GetInt (key : string) : Go Z :=
  fun w => (Done (config_int w key), w).

(** The [*pgxpool.Pool] that [Run] holds: nil, or a pool. *)
Definition Pointer := option Pgxpool.Ref.

(** [pgxpool.Connect(context.Background(), dsn)]: the pool and no error,
    or the nil pointer and the error. Of what [dial] tells, a failed
    connect leaves only the error. *)
Definition Connect (dsn : string) : Go (Pointer * option error) :=
  fun w =>
    (Done (match dial w dsn with
           | (pool, None) => (Some pool, None)
           | (_, Some e) => (None, Some e)
           end),
     emit (EvConnect dsn) w).

(** [pool.Close()]: on the nil pointer it dereferences nil. *)
Definition Close (pool : Pointer) : Go unit :=
  match pool with
  | Some p => fun w => (Done tt, emit (EvClose p) w)
  | None => panic nil_dereference
  end.

(** The collector that [metrics.NewDbStatsCollector(pool)] makes of the
    pointer of [Run]. The record of package metrics above holds a pool that
    exists; the collector made of the nil pointer is a case of its own. Its
    nine descriptors are those of every collector, made of constants (here
    read off the record for [any_pool], whose pool is never used); it has
    no pool to send a query to, and a pass on it stops at its first
    [QueryRow], which dereferences nil. *)
Inductive collector :=
| on_pool (c : Metrics.dbStatsCollector)
| on_nil.

Definition any_pool : Pgxpool.Ref := 0%nat.

Definition NewDbStatsCollector (pool : Pointer) : collector :=
  match pool with
  | Some p => on_pool (Metrics.NewDbStatsCollector p)
  | None => on_nil
  end.

Definition Describe (c : collector) (ch : Chan Prometheus.Desc)
    : Go (Chan Prometheus.Desc) :=
  match c with
  | on_pool c => Metrics.Describe c ch
  | on_nil => Metrics.Describe (Metrics.NewDbStatsCollector any_pool) ch
  end.

Definition Collect (c : collector) (ch : Chan Prometheus.Metric)
    : Go (Chan Prometheus.Metric) :=
  match c with
  | on_pool c => Metrics.Collect c ch
  | on_nil => panic nil_dereference
  end.

#[global] Instance collector_Collector : Registry.Collector collector :=
  {| Registry.Describe := Describe;
     Registry.Collect := Collect |}.

(** The [Run] function of [rootCmd]. *)
Definition Run : Go unit :=
  let reg := Registry.NewRegistry in

  dsn <- GetString "database.url" ;;
  ' (pool, err) <- Connect dsn ;;
  match err with
  | Some e => log_error e "failed to connect to database via pgxpool"
  | None => ret tt
  end ;;
  defer (Close pool) (

  reg <- Registry.MustRegister reg (NewDbStatsCollector pool) ;;

  n <- GetInt "server.port" ;;
  let port := ":" ++ sprintf_d n in
  n <- GetInt "server.port" ;;
  log_info_int "Port" n "Starting HTTP server" ;;

  Registry.Handle "/metrics" reg true ;;
  Registry.ListenAndServe port).

End Cmd.

(* ===================================================================== *)
(** ** The database behind the pool *)
(* ===================================================================== *)

(** The tables the exporter reads, with the columns its statements mention,
    and the meaning of each statement it sends. Timestamps are seconds
    since the epoch in the server's time zone; [ts::date] is the day
    number. *)
Module Postgres.

Record eod_row := mkEod {
  eod_event_date : Z;
  eod_composite_figi : string
}.

Record assets_row := mkAsset {
  new : bool;
  updated : bool;
  active : bool;
  cusip : string;
  composite_figi : string
}.

Record Database := mkDatabase {
  now : Z;
  eod : list eod_row;
  assets : list assets_row;
  seeking_alpha : list Z;        (* event_date of each row *)
  zacks_financials : list Z      (* event_date of each row *)
}.

Definition date (ts : Z) : Z := ts / 86400.

Definition one_day : Z := 86400.

(** [SELECT count( * ) FROM rows WHERE p]. *)
Definition count {A} (p : A -> bool) (rows : list A) : Z :=
  Z.of_nat (List.length (filter p rows)).

Definition eod_yesterday (db : Database) : Z :=
  count (fun r => date (eod_event_date r) =? date (now db - one_day)) (eod db).

Definition eod_no_figi (db : Database) : Z :=
  count (fun r => String.eqb (eod_composite_figi r) "") (eod db).

Definition assets_new (db : Database) : Z :=
  count (fun r => Bool.eqb (new r) true) (assets db).

Definition assets_changed (db : Database) : Z :=
  count (fun r => Bool.eqb (updated r) true) (assets db).

Definition assets_retired (db : Database) : Z :=
  count (fun r => Bool.eqb (active r) false && Bool.eqb (updated r) true) (assets db).

Definition assets_no_cusip (db : Database) : Z :=
  count (fun r => String.eqb (cusip r) "") (assets db).

(** The rows of [assets] whose [composite_figi] is empty. *)
Definition assets_no_figi (db : Database) : Z :=
  count (fun r => String.eqb (composite_figi r) "") (assets db).

Definition seeking_alpha_today (db : Database) : Z :=
  count (fun ts => date ts =? date (now db)) (seeking_alpha db).

Definition zacks_financials_today (db : Database) : Z :=
  count (fun ts => date ts =? date (now db)) (zacks_financials db).

(** The statements the exporter sends, each with what it counts. *)
Definition statements : list (string * (Database -> Z)) :=
  [ ("SELECT count(*) AS cnt FROM eod WHERE event_date::date = (now() - '1 day'::interval)::date",
     eod_yesterday);
    ("SELECT count(*) AS cnt FROM eod WHERE composite_figi=''",
     eod_no_figi);
    ("SELECT count(*) AS cnt FROM assets WHERE new = True",
     assets_new);
    ("SELECT count(*) AS cnt FROM assets WHERE updated = True",
     assets_changed);
    ("SELECT count(*) AS cnt FROM assets WHERE active = False AND updated = True",
     assets_retired);
    ("SELECT count(*) AS cnt FROM assets WHERE cusip = ''",
     assets_no_cusip);
    ("SELECT count(*) AS cnt FROM seeking_alpha WHERE event_date::date = now()::date",
     seeking_alpha_today);
    ("SELECT count(*) AS cnt FROM zacks_financials WHERE event_date::date = now()::date",
     zacks_financials_today) ].

Definition execute (db : Database) (sql : string) : Pgxpool.ScanResult :=
  match find (fun st => String.eqb (fst st) sql) statements with
  | Some (_, meaning) => Pgxpool.Scanned (meaning db)
  | None => Pgxpool.ScanFailed "ERROR: statement not understood"
  end.

(** A healthy pool in front of [db]. *)
Definition serving (db : Database) : Pgxpool.Pool := execute db.

End Postgres.

(* ===================================================================== *)
(** ** Vocabulary for the statements *)
(* ===================================================================== *)

(** The nine metrics of the catalogue, in declaration order. *)
Inductive metric :=
| M_eodDaily | M_eodNoFigi
| M_assetsNew | M_assetsChanged | M_assetsRetired | M_assetsNoCusip | M_assetsNoFigi
| M_seekingAlphaDaily | M_zacksFinancialDaily.

Definition catalogue : list metric :=
  [ M_eodDaily; M_eodNoFigi;
    M_assetsNew; M_assetsChanged; M_assetsRetired; M_assetsNoCusip; M_assetsNoFigi;
    M_seekingAlphaDaily; M_zacksFinancialDaily ].

(** The descriptor a collector holds for a metric. *)
Definition desc_of (c : Metrics.dbStatsCollector) (m : metric) : Prometheus.Desc :=
  match m with
  | M_eodDaily => Metrics.eodDaily c
  | M_eodNoFigi => Metrics.eodNoFigi c
  | M_assetsNew => Metrics.assetsNew c
  | M_assetsChanged => Metrics.assetsChanged c
  | M_assetsRetired => Metrics.assetsRetired c
  | M_assetsNoCusip => Metrics.assetsNoCusip c
  | M_assetsNoFigi => Metrics.assetsNoFigi c
  | M_seekingAlphaDaily => Metrics.seekingAlphaDaily c
  | M_zacksFinancialDaily => Metrics.zacksFinancialDaily c
  end.

(** The query function [Collect] pairs with that descriptor. *)
Definition query_fn (m : metric) : Pgxpool.Ref -> Go float64 :=
  match m with
  | M_eodDaily => Metrics.EodDaily
  | M_eodNoFigi => Metrics.EodNoFigi
  | M_assetsNew => Metrics.AssetsNew
  | M_assetsChanged => Metrics.AssetsChanged
  | M_assetsRetired => Metrics.AssetsRetired
  | M_assetsNoCusip => Metrics.AssetsNoCUSIP
  | M_assetsNoFigi => Metrics.AssetsNoFigi
  | M_seekingAlphaDaily => Metrics.SeekingAlphaDaily
  | M_zacksFinancialDaily => Metrics.ZacksFinanceDaily
  end.

(** The queries in a trace, oldest first. *)
Fixpoint queries (t : list Event) : list (Pgxpool.Ref * string) :=
  match t with
  | [] => []
  | EvQuery conn sql :: t' => (conn, sql) :: queries t'
  | _ :: t' => queries t'
  end.

(** The log records in a trace, oldest first. *)
Fixpoint records (t : list Event) : list Zerolog.Record_ :=
  match t with
  | [] => []
  | EvLog r :: t' => r :: records t'
  | _ :: t' => records t'
  end.

(** A world in which nothing has happened yet and every pool is in state
    [p]. *)
Definition blank (p : Pgxpool.Pool) : World :=
  mkWorld (fun _ => p) (fun _ => (0%nat, None)) (fun _ => "") (fun _ => 0) [].

(** The SQL text a query function sends, and the message it logs when the
    query fails: read off a run of the function itself. *)
Definition sql_of (m : metric) : string :=
  match queries (trace (snd (query_fn m 0%nat (blank (Pgxpool.unreachable ""))))) with
  | (_, sql) :: _ => sql
  | [] => ""
  end.

Definition failure_message (m : metric) : string :=
  match records (trace (snd (query_fn m 0%nat (blank (Pgxpool.unreachable ""))))) with
  | r :: _ => Zerolog.message r
  | [] => ""
  end.

(** The value a query function makes of the pool's answer. *)
Definition value_of_answer (r : Pgxpool.ScanResult) : float64 :=
  match r with
  | Pgxpool.Scanned cnt => float64_of_int cnt
  | Pgxpool.ScanFailed _ => float64_zero
  end.

(** What a query function adds to the trace. *)
Definition footprint (conn : Pgxpool.Ref) (sql msg : string)
    (r : Pgxpool.ScanResult) : list Event :=
  match r with
  | Pgxpool.Scanned _ => [EvQuery conn sql]
  | Pgxpool.ScanFailed e =>
      [EvQuery conn sql;
       EvLog (Zerolog.mkRecord Zerolog.ErrorLevel (Some e) [] msg)]
  end.

(** The world with [t] appended to its trace. *)
Definition extend (t : list Event) (w : World) : World :=
  mkWorld (pools w) (dial w) (config_string w) (config_int w) (trace w ++ t).

(** The values carried by the samples of [ms] attached to descriptor [d]. *)
Definition values_for (d : Prometheus.Desc) (ms : list Prometheus.Metric) : list float64 :=
  map Prometheus.value
    (filter (fun m => String.eqb (Prometheus.fqName (Prometheus.desc m))
                                 (Prometheus.fqName d)) ms).

(** The samples a pass over pool state [p] is to emit for collector [c]. *)
Definition samples (c : Metrics.dbStatsCollector) (p : Pgxpool.Pool) : list Prometheus.Metric :=
  map (fun m => Prometheus.mkMetric (desc_of c m) Prometheus.GaugeValue
                  (value_of_answer (p (sql_of m))) [])
      catalogue.

(** The trace of such a pass. *)
Definition pass_trace (conn : Pgxpool.Ref) (p : Pgxpool.Pool) : list Event :=
  flat_map (fun m => footprint conn (sql_of m) (failure_message m) (p (sql_of m)))
           catalogue.

(** A descriptor from which [MustNewConstMetric] makes an unlabelled
    sample. *)
Definition usable (d : Prometheus.Desc) : Prop :=
  Prometheus.err d = None /\ Prometheus.variableLabels d = [].

(** The pool's answer, when there is one, is a count: not negative. *)
Definition nonneg_answer (r : Pgxpool.ScanResult) : Prop :=
  match r with
  | Pgxpool.Scanned cnt => 0 <= cnt
  | Pgxpool.ScanFailed _ => True
  end.

(** The answers of pool [conn] in world [w] to the statements of a pass. *)
Definition answers (w : World) (conn : Pgxpool.Ref) : list Pgxpool.ScanResult :=
  map (fun m => pools w conn (sql_of m)) catalogue.

(** Descriptors are compared field by field. *)
Definition Desc_eq_dec (d d' : Prometheus.Desc) : {d = d'} + {d <> d'}.
Proof.
  decide equality;
    repeat first [ apply string_dec | apply list_eq_dec | decide equality ].
Defined.

(** The record of [log.Error().Err(e).Msg(msg)]. *)
Definition error_record (e : error) (msg : string) : Zerolog.Record_ :=
  Zerolog.mkRecord Zerolog.ErrorLevel (Some e) [] msg.

(* ===================================================================== *)
(** ** A database with known counts *)
(* ===================================================================== *)
Module Fixture.

Import Postgres.

(** Noon of day [d]. *)
Definition noon (d : Z) : Z := d * 86400 + 43200.

Definition today : Z := 19000.

Definition figi : string := "BBG000B9XRY4".
Definition a_cusip : string := "037833100".

(** 42 quotes dated yesterday, 3 of all quotes without composite FIGI;
    5 new, 7 changed and 1 retired asset, none without CUSIP, 2 without
    composite FIGI; 100 and 88 provider records dated today. *)
Definition db : Database :=
  {| now := noon today + 60;
     eod :=
       repeat (mkEod (noon (today - 1)) figi) 40
       ++ repeat (mkEod (noon (today - 1)) "") 2
       ++ repeat (mkEod (noon (today - 2)) figi) 10
       ++ repeat (mkEod (noon (today - 2)) "") 1;
     assets :=
       repeat (mkAsset true false true a_cusip figi) 4
       ++ repeat (mkAsset true false true a_cusip "") 1
       ++ repeat (mkAsset false true true a_cusip figi) 5
       ++ repeat (mkAsset false true true a_cusip "") 1
       ++ repeat (mkAsset false true false a_cusip figi) 1
       ++ repeat (mkAsset false false true a_cusip figi) 20;
     seeking_alpha :=
       repeat (noon today) 100 ++ repeat (noon (today - 1)) 97;
     zacks_financials :=
       repeat (noon today) 88 ++ repeat (noon (today - 3)) 90
  |}.

(** The collector of a process connected to pool 1, and a world in which
    that pool is healthy and serves [db]. *)
Definition conn : Pgxpool.Ref := 1%nat.

Definition world : World := blank (serving db).

(** A pool that answers as [serving db] does, except that the statement
    [sql] times out. *)
Definition timing_out (sql : string) : Pgxpool.Pool :=
  fun q => if String.eqb q sql then Pgxpool.ScanFailed "timeout: context deadline exceeded"
           else serving db q.


(** The same pool in the same state, in a world that differs in all the
    rest: the other pools are down, and the process has been running. *)
Definition later_world : World :=
  mkWorld (fun r => if Nat.eqb r conn then serving db
                    else Pgxpool.unreachable "connection refused")
          (fun _ => (conn, None))
          (fun _ => "host=db port=5432")
          (fun _ => 2112)
          [EvConnect "host=db port=5432"; EvListenAndServe ":2112";
           EvQuery conn "SELECT count(*) AS cnt FROM assets WHERE new = True"].

End Fixture.

(* ===================================================================== *)
(** ** Package cmd: the logging adapter and the initializers *)
(* ===================================================================== *)

(** *** zerolog events that carry arbitrary fields *)
Module Zlog.

Inductive Level := DebugLevel | InfoLevel | ErrorLevel.

(** A Go [interface{}] value, by dynamic type. *)
Inductive any :=
| VNil
| VString (s : string)
| VInt (n : Z)
| VBool (b : bool).

(** A [*zerolog.Event] under construction: its level and the fields added
    so far, in the order they were added. *)
Record Event := mkEvent {
  level : Level;
  fields : list (string * any)
}.

(** A line written by [Msg]; [console] tells which writer the global logger
    had at that moment (the console writer, or the JSON default). *)
Record Line := mkLine {
  line_level : Level;
  line_fields : list (string * any);
  line_message : string;
  line_console : bool
}.

(** The global [log.Logger]: its writer and what it has written. *)
Record Logger := mkLogger {
  console : bool;
  written : list Line
}.

(** [log.Debug()], [log.Info()], [log.Error()]. *)
Definition newEvent (l : Level) : Event := mkEvent l [].

(** [event.Interface(key, val)]. *)
Definition Interface (e : Event) (key : string) (val : any) : Event :=
  mkEvent (level e) (fields e ++ [(key, val)]).

(** [event.Str(key, val)]. *)
Definition Str (e : Event) (key val : string) : Event :=
  Interface e key (VString val).

(** [event.Err(err)]: a nil error adds nothing. *)
Definition Err (e : Event) (err : option error) : Event :=
  match err with
  | Some msg => Str e "error" msg
  | None => e
  end.

(** [event.Msg(msg)]. *)
Definition Msg (e : Event) (msg : string) (lg : Logger) : Logger :=
  mkLogger (console lg)
           (written lg ++ [mkLine (level e) (fields e) msg (console lg)]).

End Zlog.

(** *** keysAndValuesToEvent and CronLog *)
Module CmdLog.

Import Zlog.

(** The [for idx, val := range k] loop of [keysAndValuesToEvent], from
    index [idx] on. *)
Fixpoint range_loop (event : Event) (currKey : string) (idx : nat) (k : list any)
    : Event :=
  match k with
  | [] => event
  | val :: k' =>
      if Nat.eqb (idx mod 2) 0 then
        match val with
        | VString myKey => range_loop event myKey (S idx) k'
        | _ => range_loop event "" (S idx) k'
        end
      else
        if negb (String.eqb currKey "")
        then range_loop (Interface event currKey val) currKey (S idx) k'
        else range_loop event currKey (S idx) k'
  end.

Definition keysAndValuesToEvent (event : Event) (k : list any) : Event :=
  (* convert to map *)
  let currKey := "" in
  range_loop event currKey 0%nat k.

(** [CronLog.Info]. *)
Definition Info (msg : string) (keysAndValues : list any) : Logger -> Logger :=
  Msg (keysAndValuesToEvent (newEvent InfoLevel) keysAndValues) msg.

(** [CronLog.Error]. *)
Definition Error (err : option error) (msg : string) (keysAndValues : list any)
    : Logger -> Logger :=
  Msg (Err (keysAndValuesToEvent (newEvent ErrorLevel) keysAndValues) err) msg.

(** The key-value list that spells out [pairs]. *)
Definition spell (pairs : list (string * any)) : list any :=
  flat_map (fun kv => [VString (fst kv); snd kv]) pairs.

Definition named (kv : string * any) : bool := negb (String.eqb (fst kv) "").

(** A value that is no usable key: not a string, or the empty string. *)
Definition no_key (v : any) : bool :=
  match v with
  | VString s => String.eqb s ""
  | _ => true
  end.

End CmdLog.

(** *** initConfig and initLog *)
Module CmdInit.

(** What the program asks of viper. *)
Inductive ViperCall :=
| SetConfigFile (file : string)
| AddConfigPath (path : string)
| SetConfigType (type : string)
| SetConfigName (name : string)
| AutomaticEnv
| ReadInConfig.

(** What the host answers: the [--config] flag as parsed into [cfgFile],
    [os.UserHomeDir()], the outcome of [viper.ReadInConfig()] and of
    [viper.ConfigFileUsed()] given the calls made before, and
    [viper.GetBool("log.json")]. *)
Record Host := mkHost {
  cfgFile : string;
  UserHomeDir : string * option error;
  read_in_config : list ViperCall -> option error;
  ConfigFileUsed : list ViperCall -> string;
  log_json : bool
}.

Record Process := mkProcess {
  viper : list ViperCall;          (* calls made, oldest first *)
  logger : Zlog.Logger;            (* the global logger *)
  stderr : list string             (* lines printed outside the logger *)
}.

Inductive Result (A : Type) :=
| Returned (a : A)
| Exited (code : Z).
Arguments Returned {A} a.
Arguments Exited {A} code.

Definition Init (A : Type) : Type := Process -> Result A * Process.

Definition init_ret {A} (a : A) : Init A := fun p => (Returned a, p).

Definition init_bind {A B} (m : Init A) (k : A -> Init B) : Init B :=
  fun p =>
    match m p with
    | (Returned a, p') => k a p'
    | (Exited code, p') => (Exited code, p')
    end.

Declare Scope init_scope.
Notation "x <- m ;; k" := (init_bind m (fun x => k))
  (at level 100, m at next level, right associativity) : init_scope.
Notation "m ;; k" := (init_bind m (fun _ => k))
  (at level 100, right associativity) : init_scope.
Local Open Scope init_scope.

Definition call (c : ViperCall) : Init unit :=
  fun p => (Returned tt, mkProcess (viper p ++ [c]) (logger p) (stderr p)).

Definition log (write : Zlog.Logger -> Zlog.Logger) : Init unit :=
  fun p => (Returned tt, mkProcess (viper p) (write (logger p)) (stderr p)).

(** [cobra.CheckErr(err)]: on an error, print it and exit with status 1. *)
Definition CheckErr (err : option error) : Init unit :=
  match err with
  | None => init_ret tt
  | Some msg =>
      fun p => (Exited 1,
                mkProcess (viper p) (logger p) (stderr p ++ ["Error: " ++ msg]))
  end.

(** initConfig reads in config file and ENV variables if set. *)
Definition initConfig (h : Host) : Init unit :=
  (if negb (String.eqb (cfgFile h) "") then
     (* Use config file from the flag. *)
     call (SetConfigFile (cfgFile h))
   else
     (* Find home directory. *)
     let '(home, err) := UserHomeDir h in
     CheckErr err ;;

     (* Search config in home directory with name "pvdb-metrics". *)
     call (AddConfigPath "/etc/") ;;
     call (AddConfigPath (home ++ "/.config")) ;;
     call (AddConfigPath ".") ;;
     call (SetConfigType "toml") ;;
     call (SetConfigName "pvdb-metrics")) ;;

  call AutomaticEnv ;; (* read in environment variables that match *)

  (* If a config file is found, read it in. *)
  fun p =>
    let settings := viper p in
    (call ReadInConfig ;;
     match read_in_config h settings with
     | None =>
         log (Zlog.Msg (Zlog.Str (Zlog.newEvent Zlog.DebugLevel)
                          "ConfigFile" (ConfigFileUsed h (settings ++ [ReadInConfig])))
                       "Loaded config file")
     | Some err =>
         log (Zlog.Msg (Zlog.Err (Zlog.newEvent Zlog.ErrorLevel) (Some err))
                       "error reading config file")
     end) p.

Definition initLog (h : Host) : Init unit :=
  if negb (log_json h) then
    fun p => (Returned tt,
              mkProcess (viper p)
                        (Zlog.mkLogger true (Zlog.written (logger p)))
                        (stderr p))
  else init_ret tt.

(** The initializers, in the order [init] hands them to
    [cobra.OnInitialize]: cobra runs them in that order before [Run]. *)
Definition initializers (h : Host) : Init unit :=
  initConfig h ;;
  initLog h.

(** A process that has not started: nothing asked of viper, the logger on
    its JSON default, nothing written. *)
Definition fresh : Process := mkProcess [] (Zlog.mkLogger false []) [].

End CmdInit.

(** *** Vocabulary for the statements about package cmd *)

(** The nine descriptors of a collector: the same for every pool, and for
    the nil pointer. *)
Definition declared : list Prometheus.Desc :=
  map (desc_of (Metrics.NewDbStatsCollector Cmd.any_pool)) catalogue.

Definition is_error_record (r : Zerolog.Record_) : bool :=
  match Zerolog.level r with
  | Zerolog.ErrorLevel => true
  | Zerolog.InfoLevel => false
  end.

(** The fields [keysAndValuesToEvent] is to add for [k], read two elements
    at a time: a key that is a non-empty string, then its value. *)
Fixpoint pairs_of (k : list Zlog.any) : list (string * Zlog.any) :=
  match k with
  | key :: val :: k' =>
      match key with
      | Zlog.VString s => if String.eqb s "" then pairs_of k' else (s, val) :: pairs_of k'
      | _ => pairs_of k'
      end
  | _ => []
  end.

(** The line [initConfig] writes once [viper.ReadInConfig()] has returned,
    [settings] being the calls made before it and [console] the writer of
    the logger. *)
Definition config_line (h : CmdInit.Host) (settings : list CmdInit.ViperCall)
    (console : bool) : Zlog.Line :=
  match CmdInit.read_in_config h settings with
  | None =>
      Zlog.mkLine Zlog.DebugLevel
        [("ConfigFile",
          Zlog.VString (CmdInit.ConfigFileUsed h (settings ++ [CmdInit.ReadInConfig])))]
        "Loaded config file" console
  | Some e =>
      Zlog.mkLine Zlog.ErrorLevel [("error", Zlog.VString e)]
        "error reading config file" console
  end.

(** The process after [line] has been written by its logger. *)
Definition with_line (line : Zlog.Line) (p : CmdInit.Process) : CmdInit.Process :=
  CmdInit.mkProcess (CmdInit.viper p)
    (Zlog.mkLogger (Zlog.console (CmdInit.logger p))
                   (Zlog.written (CmdInit.logger p) ++ [line]))
    (CmdInit.stderr p).

(** The process after [calls] have been made to viper. *)
Definition with_calls (calls : list CmdInit.ViperCall) (p : CmdInit.Process)
    : CmdInit.Process :=
  CmdInit.mkProcess (CmdInit.viper p ++ calls) (CmdInit.logger p) (CmdInit.stderr p).

(** Reading a [float64] back as an integer, as the conversion [int(x)]
    does for a finite [x]: the value truncated toward zero. *)
Definition int_of_float64 (x : float64) : option Z :=
  match x with
  | S754_zero _ => Some 0
  | S754_finite s m e =>
      let magnitude := if 0 <=? e then Zpos m * 2 ^ e else Zpos m / 2 ^ (- e) in
      Some (if s then - magnitude else magnitude)
  | S754_infinity _ | S754_nan => None
  end.

(* ===================================================================== *)
(** ** Running Go actions *)
(* ===================================================================== *)

Lemma bind_run {A B} (m : Go A) (k : A -> Go B) w a w' :
  m w = (Done a, w') -> bind m k w = k a w'.
Proof. intros E. unfold bind. rewrite E. reflexivity. Qed.

Lemma bind_panicked {A B} (m : Go A) (k : A -> Go B) w msg w' :
  m w = (Panicked msg, w') -> bind m k w = (Panicked msg, w').
Proof. intros E. unfold bind. rewrite E. reflexivity. Qed.

Lemma send_run {T} (ch : Chan T) (x : T) w :
  send ch x w = (Done (ch ++ [x])%list, w).
Proof. reflexivity. Qed.

Lemma extend_extend t1 t2 w : extend t2 (extend t1 w) = extend (t1 ++ t2) w.
Proof. unfold extend. simpl. rewrite app_assoc. reflexivity. Qed.

Lemma emit_extend e w : emit e w = extend [e] w.
Proof. reflexivity. Qed.

Lemma queries_app t1 t2 : queries (t1 ++ t2) = (queries t1 ++ queries t2)%list.
Proof.
  induction t1 as [|e t1 IH]; simpl; [reflexivity|].
  destruct e; simpl; rewrite ?IH; reflexivity.
Qed.

(* ===================================================================== *)
(** ** The query functions *)
(* ===================================================================== *)

(** Every query function sends its one statement, and turns the answer into
    a value: the count converted, or zero and a log record. *)
Lemma query_fn_run m conn w :
  query_fn m conn w =
    (Done (value_of_answer (pools w conn (sql_of m))),
     extend (footprint conn (sql_of m) (failure_message m) (pools w conn (sql_of m))) w).
Proof.
  destruct m;
    cbv [query_fn Metrics.EodDaily Metrics.EodNoFigi Metrics.AssetsNew Metrics.AssetsChanged
         Metrics.AssetsRetired Metrics.AssetsNoCUSIP Metrics.AssetsNoFigi
         Metrics.SeekingAlphaDaily Metrics.ZacksFinanceDaily bind QueryRowScan];
    match goal with
    | |- context [sql_of ?m] =>
        let s := eval vm_compute in (sql_of m) in change (sql_of m) with s;
        let f := eval vm_compute in (failure_message m) in change (failure_message m) with f
    end;
    cbn [pools emit];
    destruct (pools w conn _) as [cnt|e];
    cbv [log_error ret emit extend footprint value_of_answer pools dial config_string
         config_int trace];
    rewrite <- ?app_assoc; reflexivity.
Qed.

Lemma pools_extend t w : pools (extend t w) = pools w.
Proof. reflexivity. Qed.

(** The statement of the two functions that read the quotes of yesterday. *)
Lemma sql_of_catalogue :
  map sql_of catalogue =
    [ "SELECT count(*) AS cnt FROM eod WHERE event_date::date = (now() - '1 day'::interval)::date";
      "SELECT count(*) AS cnt FROM eod WHERE composite_figi=''";
      "SELECT count(*) AS cnt FROM assets WHERE new = True";
      "SELECT count(*) AS cnt FROM assets WHERE updated = True";
      "SELECT count(*) AS cnt FROM assets WHERE active = False AND updated = True";
      "SELECT count(*) AS cnt FROM assets WHERE cusip = ''";
      "SELECT count(*) AS cnt FROM eod WHERE event_date::date = (now() - '1 day'::interval)::date";
      "SELECT count(*) AS cnt FROM seeking_alpha WHERE event_date::date = now()::date";
      "SELECT count(*) AS cnt FROM zacks_financials WHERE event_date::date = now()::date" ].
Proof. reflexivity. Qed.

(* ===================================================================== *)
(** ** The collector *)
(* ===================================================================== *)

Lemma MustNewConstMetric_run d t v w :
  usable d ->
  MustNewConstMetric d t v w = (Done (Prometheus.mkMetric d t v []), w).
Proof.
  intros [He Hl]. unfold MustNewConstMetric, Prometheus.NewConstMetric.
  rewrite He, Hl. reflexivity.
Qed.

Lemma MustNewConstMetric_invalid d t v w e :
  Prometheus.err d = Some e ->
  MustNewConstMetric d t v w = (Panicked e, w).
Proof.
  intros He. unfold MustNewConstMetric, Prometheus.NewConstMetric.
  rewrite He. reflexivity.
Qed.

Lemma NewDbStatsCollector_usable conn m :
  usable (desc_of (Metrics.NewDbStatsCollector conn) m).
Proof. destruct m; split; reflexivity. Qed.

Lemma NewDbStatsCollector_pool conn :
  Metrics.pool (Metrics.NewDbStatsCollector conn) = conn.
Proof. reflexivity. Qed.

(** [Describe] sends the nine held descriptors in declaration order and does
    nothing else. *)
Lemma Describe_run c ch w :
  Metrics.Describe c ch w = (Done (ch ++ map (desc_of c) catalogue)%list, w).
Proof.
  unfold Metrics.Describe, bind, send, ret. simpl.
  rewrite <- !app_assoc. reflexivity.
Qed.

Ltac run_query :=
  first
    [ rewrite (bind_run _ _ _ _ _ (query_fn_run M_eodDaily _ _))
    | rewrite (bind_run _ _ _ _ _ (query_fn_run M_eodNoFigi _ _))
    | rewrite (bind_run _ _ _ _ _ (query_fn_run M_assetsNew _ _))
    | rewrite (bind_run _ _ _ _ _ (query_fn_run M_assetsChanged _ _))
    | rewrite (bind_run _ _ _ _ _ (query_fn_run M_assetsRetired _ _))
    | rewrite (bind_run _ _ _ _ _ (query_fn_run M_assetsNoCusip _ _))
    | rewrite (bind_run _ _ _ _ _ (query_fn_run M_assetsNoFigi _ _))
    | rewrite (bind_run _ _ _ _ _ (query_fn_run M_seekingAlphaDaily _ _))
    | rewrite (bind_run _ _ _ _ _ (query_fn_run M_zacksFinancialDaily _ _)) ].

(** One pass of [Collect] over usable descriptors: nine samples in
    declaration order, each carrying what its query function made of the
    pool's answer; the trace grows by the nine queries and the log records
    of those that failed. *)
Lemma Collect_run c ch w :
  (forall m, usable (desc_of c m)) ->
  Metrics.Collect c ch w =
    (Done (ch ++ samples c (pools w (Metrics.pool c)))%list,
     extend (pass_trace (Metrics.pool c) (pools w (Metrics.pool c))) w).
Proof.
  intros U. unfold Metrics.Collect.
  do 8 (run_query;
        match goal with
        | |- context [MustNewConstMetric ?d ?t ?v] =>
            rewrite (bind_run _ _ _ _ _ (MustNewConstMetric_run d t v _
                       ltac:(first [ exact (U M_eodDaily) | exact (U M_eodNoFigi)
                                   | exact (U M_assetsNew) | exact (U M_assetsChanged)
                                   | exact (U M_assetsRetired) | exact (U M_assetsNoCusip)
                                   | exact (U M_assetsNoFigi) | exact (U M_seekingAlphaDaily)
                                   | exact (U M_zacksFinancialDaily) ])))
        end;
        rewrite (bind_run _ _ _ _ _ (send_run _ _ _))).
  run_query.
  rewrite (bind_run _ _ _ _ _ (MustNewConstMetric_run _ _ _ _ (U M_zacksFinancialDaily))).
  rewrite send_run.
  rewrite !extend_extend, !pools_extend.
  unfold samples, pass_trace. simpl map. simpl flat_map.
  rewrite <- !app_assoc, ?app_nil_r. reflexivity.
Qed.

(** [Collect] is not safe on every record of the type: with an invalid
    first descriptor it panics after its first query. The descriptors of
    [NewDbStatsCollector] are what keeps a pass from failing. *)
Lemma Collect_panics_on_invalid_descriptor c ch w e :
  Prometheus.err (Metrics.eodDaily c) = Some e ->
  fst (Metrics.Collect c ch w) = Panicked e.
Proof.
  intros E. unfold Metrics.Collect.
  run_query.
  rewrite (bind_panicked _ _ _ _ _ (MustNewConstMetric_invalid _ _ _ _ _ E)).
  reflexivity.
Qed.

(* ===================================================================== *)
(** ** Conversion to float64 keeps the sign *)
(* ===================================================================== *)
Section Float64.

Lemma shr_1_nonneg mrs : 0 <= shr_m mrs -> 0 <= shr_m (shr_1 mrs).
Proof.
  destruct mrs as [m r s]. simpl.
  destruct m as [|p|p]; [| destruct p | ]; simpl; lia.
Qed.

Lemma iter_pos_invariant {A} (P : A -> Prop) (f : A -> A) :
  (forall x, P x -> P (f x)) ->
  forall p x, P x -> P (iter_pos f p x).
Proof.
  intros Hf. induction p as [p IH|p IH|]; intros x Hx; simpl; auto.
Qed.

Lemma shr_nonneg mrs e n : 0 <= shr_m mrs -> 0 <= shr_m (fst (shr mrs e n)).
Proof.
  intros H. unfold shr. destruct n; simpl; auto.
  apply (iter_pos_invariant (fun x => 0 <= shr_m x)); auto using shr_1_nonneg.
Qed.

Lemma shr_record_of_loc_m m l : shr_m (shr_record_of_loc m l) = m.
Proof. destruct l as [|[]]; reflexivity. Qed.

Lemma shr_fexp_nonneg m e l :
  0 <= m -> 0 <= shr_m (fst (shr_fexp prec64 emax64 m e l)).
Proof.
  intros H. unfold shr_fexp. apply shr_nonneg.
  rewrite shr_record_of_loc_m. exact H.
Qed.

Lemma round_nearest_even_nonneg m l : 0 <= m -> 0 <= round_nearest_even m l.
Proof.
  intros H. unfold round_nearest_even.
  destruct l as [|[]]; try destruct (Z.even m); lia.
Qed.

Lemma binary_round_aux_nonneg mx ex lx :
  0 <= mx ->
  float64_ge (binary_round_aux prec64 emax64 false mx ex lx) float64_zero = true.
Proof.
  intros H. unfold binary_round_aux.
  pose proof (shr_fexp_nonneg mx ex lx H) as H1.
  destruct (shr_fexp prec64 emax64 mx ex lx) as [mrs' e']. simpl in H1.
  pose proof (shr_fexp_nonneg _ e' loc_Exact
                (round_nearest_even_nonneg _ (loc_of_shr_record mrs') H1)) as H2.
  destruct (shr_fexp prec64 emax64 _ e' loc_Exact) as [mrs'' e'']. simpl in H2.
  destruct (shr_m mrs'') as [|m|m]; [reflexivity | | lia].
  destruct (e'' <=? emax64 - prec64); reflexivity.
Qed.

(** A non-negative [int] converts to a [float64] that is [>= 0] (and so
    is not NaN). *)
Lemma float64_of_int_nonneg n :
  0 <= n -> float64_ge (float64_of_int n) float64_zero = true.
Proof.
  intros H. unfold float64_of_int, binary_normalize.
  destruct n as [|p|p]; [reflexivity | | lia].
  unfold binary_round.
  destruct (shl_align p 0 _) as [mz ez].
  apply binary_round_aux_nonneg. lia.
Qed.

Lemma value_of_answer_nonneg r :
  (forall cnt, r = Pgxpool.Scanned cnt -> 0 <= cnt) ->
  float64_ge (value_of_answer r) float64_zero = true.
Proof.
  intros H. destruct r as [cnt|e]; simpl.
  - apply float64_of_int_nonneg. auto.
  - reflexivity.
Qed.

End Float64.

(** What a healthy pool answers is a count of rows. *)
Lemma count_nonneg {A} (p : A -> bool) rows : 0 <= Postgres.count p rows.
Proof. unfold Postgres.count. lia. Qed.

Lemma serving_nonneg db sql cnt :
  Postgres.serving db sql = Pgxpool.Scanned cnt -> 0 <= cnt.
Proof.
  unfold Postgres.serving, Postgres.execute.
  destruct (find _ Postgres.statements) as [[s meaning]|] eqn:F; [|discriminate].
  intros E. injection E as <-.
  apply find_some in F. destruct F as [Hin _].
  simpl in Hin.
  repeat (destruct Hin as [Hin|Hin];
          [injection Hin as _ <-; apply count_nonneg|]).
  contradiction.
Qed.

(* ===================================================================== *)
(** ** The collector contract *)
(* ===================================================================== *)

Lemma samples_descs c p : map Prometheus.desc (samples c p) = map (desc_of c) catalogue.
Proof. unfold samples. rewrite map_map. reflexivity. Qed.

(** The nine descriptors of a collector made by [NewDbStatsCollector] are
    pairwise different. *)
Lemma declared_NoDup conn :
  NoDup (map (desc_of (Metrics.NewDbStatsCollector conn)) catalogue).
Proof.
  simpl.
  repeat (constructor;
          [simpl; intros H; repeat destruct H as [H|H];
           first [discriminate H | contradiction]|]).
  constructor.
Qed.

Lemma values_for_samples conn p m :
  values_for (desc_of (Metrics.NewDbStatsCollector conn) m)
             (samples (Metrics.NewDbStatsCollector conn) p)
  = [value_of_answer (p (sql_of m))].
Proof. destruct m; reflexivity. Qed.

(** C1. Whatever the state of the pool, healthy or broken, a [Describe]
    followed by a [Collect] on a collector made by [NewDbStatsCollector]
    both return; [Describe] declares nine pairwise different descriptors,
    and the descriptors attached to the samples of [Collect] are those
    nine, each exactly once: every declared descriptor has exactly one
    sample, and every sample has a declared descriptor. *)
Theorem Collect_one_sample_per_declared_descriptor (conn : Pgxpool.Ref) (w : World) :
  let c := Metrics.NewDbStatsCollector conn in
  exists ds ms w',
    Metrics.Describe c [] w = (Done ds, w) /\
    Metrics.Collect c [] w = (Done ms, w') /\
    List.length ds = 9%nat /\
    NoDup ds /\
    Permutation (map Prometheus.desc ms) ds /\
    Forall (fun d => count_occ Desc_eq_dec (map Prometheus.desc ms) d = 1%nat) ds /\
    Forall (fun m => In (Prometheus.desc m) ds) ms.
Proof.
  intros c.
  exists (map (desc_of c) catalogue), (samples c (pools w conn)),
         (extend (pass_trace conn (pools w conn)) w).
  assert (D : map Prometheus.desc (samples c (pools w conn)) = map (desc_of c) catalogue)
    by apply samples_descs.
  split; [apply (Describe_run c [] w)|].
  split; [apply (Collect_run c [] w); apply NewDbStatsCollector_usable|].
  split; [reflexivity|].
  split; [apply declared_NoDup|].
  split; [rewrite D; apply Permutation_refl|].
  split.
  - rewrite D. subst c. repeat constructor.
  - apply Forall_forall. intros m Hm. rewrite <- D. apply in_map. exact Hm.
Qed.

(** C5. [Describe] can be called again and again: on any collector, two
    calls, whatever the world each runs in, return the same sequence of
    descriptors, of length nine; so does a second call made right after a
    first. *)
Theorem Describe_idempotent (c : Metrics.dbStatsCollector) (w1 w2 : World) :
  exists ds,
    fst (Metrics.Describe c [] w1) = Done ds /\
    fst (Metrics.Describe c [] w2) = Done ds /\
    List.length ds = 9%nat /\
    (d1 <- Metrics.Describe c [] ;; d2 <- Metrics.Describe c [] ;; ret (d1, d2)) w1
      = (Done (ds, ds), w1).
Proof.
  exists (map (desc_of c) catalogue).
  split; [rewrite Describe_run; reflexivity|].
  split; [rewrite Describe_run; reflexivity|].
  split; [reflexivity|].
  rewrite (bind_run _ _ _ _ _ (Describe_run c [] w1)).
  rewrite (bind_run _ _ _ _ _ (Describe_run c [] w1)).
  reflexivity.
Qed.

(** C6. [Describe] does not touch the database: it leaves the world as it
    found it, so the trace gains no query (nor anything else), and what it
    sends is the same in every world, whatever the state of the pool. *)
Theorem Describe_touches_no_database (c : Metrics.dbStatsCollector)
    (ch : Chan Prometheus.Desc) (w : World) :
  snd (Metrics.Describe c ch w) = w /\
  queries (trace (snd (Metrics.Describe c ch w))) = queries (trace w) /\
  forall w' : World, fst (Metrics.Describe c ch w') = fst (Metrics.Describe c ch w).
Proof.
  rewrite Describe_run. cbn [fst snd].
  split; [reflexivity|].
  split; [reflexivity|].
  intros w'. rewrite Describe_run. reflexivity.
Qed.

(** C4. When the query of a query function fails, the function returns
    exactly 0 and no error: it sends its statement, logs one error record
    with the failure attached, and returns normally. The [Collect] pass in
    that state returns normally too, with all nine samples, and the sample
    of that function's descriptor carries 0. *)
Theorem failed_query_reports_zero (m : metric) (conn : Pgxpool.Ref) (w : World)
    (e : error) :
  pools w conn (sql_of m) = Pgxpool.ScanFailed e ->
  query_fn m conn w =
    (Done float64_zero,
     extend [EvQuery conn (sql_of m); EvLog (error_record e (failure_message m))] w) /\
  exists ms w',
    Metrics.Collect (Metrics.NewDbStatsCollector conn) [] w = (Done ms, w') /\
    List.length ms = 9%nat /\
    values_for (desc_of (Metrics.NewDbStatsCollector conn) m) ms = [float64_zero].
Proof.
  intros F. split.
  - rewrite query_fn_run, F. reflexivity.
  - eexists. eexists.
    split; [apply Collect_run; intros m'; apply NewDbStatsCollector_usable|].
    rewrite NewDbStatsCollector_pool. split; [reflexivity|].
    cbn [app]. rewrite values_for_samples, F. reflexivity.
Qed.

(** The statement of the new-assets count times out; the others are
    answered. *)
Lemma failed_query_reports_zero_witness :
  let w := blank (Fixture.timing_out (sql_of M_assetsNew)) in
  pools w Fixture.conn (sql_of M_assetsNew)
    = Pgxpool.ScanFailed "timeout: context deadline exceeded" /\
  fst (query_fn M_assetsNew Fixture.conn w) = Done float64_zero /\
  exists ms w',
    Metrics.Collect (Metrics.NewDbStatsCollector Fixture.conn) [] w = (Done ms, w') /\
    List.length ms = 9%nat /\
    values_for (desc_of (Metrics.NewDbStatsCollector Fixture.conn) M_assetsNew) ms
      = [float64_zero].
Proof.
  intros w.
  assert (F : pools w Fixture.conn (sql_of M_assetsNew)
              = Pgxpool.ScanFailed "timeout: context deadline exceeded")
    by reflexivity.
  split; [exact F|].
  destruct (failed_query_reports_zero M_assetsNew Fixture.conn w _ F) as [Q C].
  split; [rewrite Q; reflexivity | exact C].
Defined.

(** C7. A query function returns the pool's count converted to [float64]
    when the query succeeds and 0 when it fails; when the count is not
    negative, as a count of rows is, the value returned is [>= 0]. *)
Theorem query_fn_nonneg (m : metric) (conn : Pgxpool.Ref) (w : World) :
  nonneg_answer (pools w conn (sql_of m)) ->
  exists v w',
    query_fn m conn w = (Done v, w') /\
    v = match pools w conn (sql_of m) with
        | Pgxpool.Scanned cnt => float64_of_int cnt
        | Pgxpool.ScanFailed _ => float64_zero
        end /\
    float64_ge v float64_zero = true.
Proof.
  intros N. eexists. eexists.
  split; [apply query_fn_run|].
  split; [reflexivity|].
  apply value_of_answer_nonneg. intros cnt E. rewrite E in N. exact N.
Qed.

Lemma query_fn_nonneg_witness :
  nonneg_answer (pools Fixture.world Fixture.conn (sql_of M_zacksFinancialDaily)) /\
  exists v w',
    query_fn M_zacksFinancialDaily Fixture.conn Fixture.world = (Done v, w') /\
    v = float64_of_int 88 /\
    float64_ge v float64_zero = true.
Proof.
  assert (N : nonneg_answer (pools Fixture.world Fixture.conn (sql_of M_zacksFinancialDaily)))
    by (vm_compute; discriminate).
  split; [exact N|].
  destruct (query_fn_nonneg M_zacksFinancialDaily Fixture.conn Fixture.world N)
    as (v & w' & R & V & G).
  exists v, w'. split; [exact R|]. split; [|exact G].
  rewrite V. reflexivity.
Defined.

(** A healthy pool answers with counts of rows, so every query function
    returns a value [>= 0] on it. *)
Lemma query_fn_nonneg_healthy m conn w db :
  pools w conn = Postgres.serving db ->
  exists v w', query_fn m conn w = (Done v, w') /\ float64_ge v float64_zero = true.
Proof.
  intros H. eexists. eexists. split; [apply query_fn_run|].
  apply value_of_answer_nonneg. intros cnt E. rewrite H in E.
  exact (serving_nonneg _ _ _ E).
Qed.


(** The samples of a pass depend on the pool only through its answers to
    the statements of the pass. *)
Lemma samples_ext c p1 p2 :
  map (fun m => p1 (sql_of m)) catalogue = map (fun m => p2 (sql_of m)) catalogue ->
  samples c p1 = samples c p2.
Proof.
  unfold samples. generalize catalogue as l.
  induction l as [|m l IH]; intros A; [reflexivity|].
  simpl in A. injection A as A1 A2.
  simpl. rewrite A1, (IH A2). reflexivity.
Qed.

(** C10. Two [Collect] calls on the same collector, in worlds that may
    differ in everything but the answers of the collector's pool to the
    statements of the pass, return the same samples, in the order in which
    [Describe] sends the descriptors: [eodDaily] first, [zacksFinancialDaily]
    last. The collector is the same value before and after a call, so a
    second call made right after a first returns the same samples again. *)
Theorem Collect_deterministic (conn : Pgxpool.Ref) (w1 w2 : World) :
  answers w1 conn = answers w2 conn ->
  let c := Metrics.NewDbStatsCollector conn in
  exists ms ds,
    fst (Metrics.Collect c [] w1) = Done ms /\
    fst (Metrics.Collect c [] w2) = Done ms /\
    fst (Metrics.Describe c [] w1) = Done ds /\
    map Prometheus.desc ms = ds /\
    hd_error ds = Some (Metrics.eodDaily c) /\
    last ds (Metrics.eodDaily c) = Metrics.zacksFinancialDaily c /\
    fst ((ms1 <- Metrics.Collect c [] ;; ms2 <- Metrics.Collect c [] ;; ret (ms1, ms2)) w1)
      = Done (ms, ms).
Proof.
  intros A c.
  exists (samples c (pools w1 conn)), (map (desc_of c) catalogue).
  assert (U : forall m, usable (desc_of c m))
    by (intros m; apply NewDbStatsCollector_usable).
  rewrite !(Collect_run c [] _ U), Describe_run.
  split; [reflexivity|].
  split.
  - change (Metrics.pool c) with conn.
    rewrite (samples_ext c _ _ A). reflexivity.
  - split; [reflexivity|].
    split; [apply samples_descs|].
    split; [reflexivity|].
    split; [reflexivity|].
    rewrite (bind_run _ _ _ _ _ (Collect_run c [] w1 U)).
    rewrite (bind_run _ _ _ _ _ (Collect_run c [] _ U)).
    reflexivity.
Qed.

Lemma Collect_deterministic_witness :
  answers Fixture.world Fixture.conn = answers Fixture.later_world Fixture.conn /\
  trace Fixture.world <> trace Fixture.later_world /\
  exists ms,
    fst (Metrics.Collect (Metrics.NewDbStatsCollector Fixture.conn) [] Fixture.world)
      = Done ms /\
    fst (Metrics.Collect (Metrics.NewDbStatsCollector Fixture.conn) [] Fixture.later_world)
      = Done ms.
Proof.
  assert (A : answers Fixture.world Fixture.conn
              = answers Fixture.later_world Fixture.conn) by reflexivity.
  split; [exact A|].
  split; [discriminate|].
  destruct (Collect_deterministic Fixture.conn Fixture.world Fixture.later_world A)
    as (ms & ds & C1 & C2 & _).
  exists ms. split; assumption.
Defined.

Lemma MustRegister_fresh conn w :
  Registry.MustRegister Registry.NewRegistry (Metrics.NewDbStatsCollector conn) w =
    (Done (map (desc_of (Metrics.NewDbStatsCollector conn)) catalogue),
     extend [EvRegister (map (desc_of (Metrics.NewDbStatsCollector conn)) catalogue)] w).
Proof.
  unfold Registry.MustRegister.
  rewrite (bind_run _ _ _ _ _ (Describe_run (Metrics.NewDbStatsCollector conn) [] w)).
  reflexivity.
Qed.

Lemma declared_any conn :
  map (desc_of (Metrics.NewDbStatsCollector conn)) catalogue = declared.
Proof. reflexivity. Qed.

(** Registration of the collector of [Run] on a fresh registry: it goes
    through, on a pool as on the nil pointer, since [Describe] does not use
    the pool. *)
Lemma MustRegister_pointer pool w :
  Registry.MustRegister Registry.NewRegistry (Cmd.NewDbStatsCollector pool) w =
    (Done declared, extend [EvRegister declared] w).
Proof.
  unfold Registry.MustRegister.
  destruct pool as [p|]; cbn [Cmd.NewDbStatsCollector Registry.Describe
                              Cmd.collector_Collector Cmd.Describe].
  - rewrite (bind_run _ _ _ _ _ (Describe_run (Metrics.NewDbStatsCollector p) [] w)).
    reflexivity.
  - rewrite (bind_run _ _ _ _ _
               (Describe_run (Metrics.NewDbStatsCollector Cmd.any_pool) [] w)).
    reflexivity.
Qed.

(** A pass on the collector made of the nil pointer panics before any
    query is sent. *)
Lemma Collect_on_nil_panics ch w :
  Cmd.Collect (Cmd.NewDbStatsCollector None) ch w = (Panicked nil_dereference, w).
Proof. reflexivity. Qed.

(** The trace of [Run], whatever [Connect] returns. *)
Lemma Run_trace w :
  Cmd.Run w =
    match dial w (config_string w "database.url") with
    | (pool, None) =>
        (Done tt,
         extend
           [ EvConnect (config_string w "database.url");
             EvRegister declared;
             EvLog (Zerolog.mkRecord Zerolog.InfoLevel None
                      [("Port", config_int w "server.port")] "Starting HTTP server");
             EvHandle "/metrics" declared true;
             EvListenAndServe (":" ++ sprintf_d (config_int w "server.port"));
             EvClose pool ]
           w)
    | (_, Some e) =>
        (Panicked nil_dereference,
         extend
           [ EvConnect (config_string w "database.url");
             EvLog (error_record e "failed to connect to database via pgxpool");
             EvRegister declared;
             EvLog (Zerolog.mkRecord Zerolog.InfoLevel None
                      [("Port", config_int w "server.port")] "Starting HTTP server");
             EvHandle "/metrics" declared true;
             EvListenAndServe (":" ++ sprintf_d (config_int w "server.port")) ]
           w)
    end.
Proof.
  unfold Cmd.Run.
  rewrite (bind_run (Cmd.GetString "database.url") _ w _ w eq_refl).
  unfold Cmd.Connect at 1.
  unfold bind at 1.
  destruct (dial w (config_string w "database.url")) as [pool [e|]];
    unfold bind at 1, ret, log_error; unfold defer;
    rewrite (bind_run _ _ _ _ _ (MustRegister_pointer _ _));
    unfold bind, Cmd.GetInt, log_info_int, Registry.Handle, Registry.ListenAndServe,
      Cmd.Close, panic;
    rewrite !emit_extend, !extend_extend; reflexivity.
Qed.



(* ===================================================================== *)
(** ** The assets without composite FIGI *)
(* ===================================================================== *)

(** C2. On the database with the counts 42, 3, 5, 7, 1, 0, 2, 100 and 88, a
    [Collect] pass emits the values 42, 3, 5, 7, 1, 0, 42, 100 and 88: the
    sample of [assetsNoFigi] carries the 42 quotes of yesterday, not the 2
    assets without composite FIGI. *)
Theorem Collect_fixture_assetsNoFigi_carries_42 :
  [ Postgres.eod_yesterday Fixture.db; Postgres.eod_no_figi Fixture.db;
    Postgres.assets_new Fixture.db; Postgres.assets_changed Fixture.db;
    Postgres.assets_retired Fixture.db; Postgres.assets_no_cusip Fixture.db;
    Postgres.assets_no_figi Fixture.db;
    Postgres.seeking_alpha_today Fixture.db; Postgres.zacks_financials_today Fixture.db ]
    = [42; 3; 5; 7; 1; 0; 2; 100; 88] /\
  exists ms w',
    Metrics.Collect (Metrics.NewDbStatsCollector Fixture.conn) [] Fixture.world
      = (Done ms, w') /\
    map Prometheus.value ms = map float64_of_int [42; 3; 5; 7; 1; 0; 42; 100; 88] /\
    values_for (Metrics.assetsNoFigi (Metrics.NewDbStatsCollector Fixture.conn)) ms
      = [float64_of_int 42] /\
    float64_of_int 42 <> float64_of_int 2.
Proof.
  split; [reflexivity|].
  eexists. eexists.
  split; [apply Collect_run; intros m; apply NewDbStatsCollector_usable|].
  split; [reflexivity|].
  split; [reflexivity|].
  discriminate.
Qed.

(** C3. [AssetsNoFigi] does not count the assets without composite FIGI: on
    a healthy pool it returns the number of rows of [eod] dated yesterday.
    On the database with 2 such assets and 42 such quotes it returns 42. *)
Theorem AssetsNoFigi_counts_quotes_of_yesterday :
  (forall (db : Postgres.Database) (conn : Pgxpool.Ref),
     fst (Metrics.AssetsNoFigi conn (blank (Postgres.serving db)))
       = Done (float64_of_int (Postgres.eod_yesterday db))) /\
  Postgres.assets_no_figi Fixture.db = 2 /\
  fst (Metrics.AssetsNoFigi Fixture.conn Fixture.world) = Done (float64_of_int 42) /\
  float64_of_int 42 <> float64_of_int 2.
Proof.
  split; [intros db conn; reflexivity|].
  split; [reflexivity|].
  split; [reflexivity|].
  discriminate.
Qed.

(* ===================================================================== *)
(** ** More on a pass of the collector *)
(* ===================================================================== *)

Lemma records_app t1 t2 : records (t1 ++ t2) = (records t1 ++ records t2)%list.
Proof.
  induction t1 as [|e t1 IH]; simpl; [reflexivity|].
  destruct e; simpl; rewrite ?IH; reflexivity.
Qed.

Lemma queries_pass_trace conn p (l : list metric) :
  queries (flat_map (fun m => footprint conn (sql_of m) (failure_message m) (p (sql_of m))) l)
  = map (fun m => (conn, sql_of m)) l.
Proof.
  induction l as [|m l IH]; [reflexivity|].
  simpl flat_map. rewrite queries_app, IH.
  destruct (p (sql_of m)); reflexivity.
Qed.

Lemma records_pass_trace conn p (l : list metric) :
  records (flat_map (fun m => footprint conn (sql_of m) (failure_message m) (p (sql_of m))) l)
  = flat_map (fun m => match p (sql_of m) with
                       | Pgxpool.ScanFailed e => [error_record e (failure_message m)]
                       | Pgxpool.Scanned _ => []
                       end) l.
Proof.
  induction l as [|m l IH]; [reflexivity|].
  simpl flat_map. rewrite records_app, IH.
  destruct (p (sql_of m)); reflexivity.
Qed.

Lemma Collect_New_run conn ch w :
  Metrics.Collect (Metrics.NewDbStatsCollector conn) ch w =
    (Done (ch ++ samples (Metrics.NewDbStatsCollector conn) (pools w conn))%list,
     extend (pass_trace conn (pools w conn)) w).
Proof.
  apply (Collect_run (Metrics.NewDbStatsCollector conn) ch w).
  intros m. apply NewDbStatsCollector_usable.
Qed.

(** The samples of a pass depend on the pool only through the values its
    answers turn into. *)
Lemma samples_value_ext c p1 p2 :
  (forall m, value_of_answer (p1 (sql_of m)) = value_of_answer (p2 (sql_of m))) ->
  samples c p1 = samples c p2.
Proof.
  intros H. unfold samples. apply map_ext. intros m. rewrite (H m). reflexivity.
Qed.

(** X1. A pass sends all nine statements, in declaration order and to the
    collector's own pool, whatever the pool answers: a failed query does
    not cut the pass short. Every statement is a [SELECT count( * )]. *)
Theorem Collect_sends_nine_statements (conn : Pgxpool.Ref)
    (ch : Chan Prometheus.Metric) (w : World) :
  queries (trace (snd (Metrics.Collect (Metrics.NewDbStatsCollector conn) ch w)))
    = (queries (trace w) ++ map (fun m => (conn, sql_of m)) catalogue)%list /\
  List.length (map (fun m => (conn, sql_of m)) catalogue) = 9%nat /\
  Forall (fun m => prefix "SELECT count(*) AS cnt FROM " (sql_of m) = true) catalogue.
Proof.
  rewrite Collect_New_run. cbn [snd extend trace].
  rewrite queries_app. unfold pass_trace. rewrite queries_pass_trace.
  split; [reflexivity|].
  split; [reflexivity|].
  repeat constructor.
Qed.

(** X2. A pass writes one error record for each statement that failed, in
    the order of the queries, with the failure attached and the message of
    the function that sent it; it writes nothing for a query that
    succeeded. *)
Theorem Collect_logs_each_failure_once (conn : Pgxpool.Ref)
    (ch : Chan Prometheus.Metric) (w : World) :
  records (trace (snd (Metrics.Collect (Metrics.NewDbStatsCollector conn) ch w)))
    = (records (trace w) ++
       flat_map (fun m => match pools w conn (sql_of m) with
                          | Pgxpool.ScanFailed e => [error_record e (failure_message m)]
                          | Pgxpool.Scanned _ => []
                          end) catalogue)%list.
Proof.
  rewrite Collect_New_run. cbn [snd extend trace].
  rewrite records_app. unfold pass_trace. rewrite records_pass_trace.
  reflexivity.
Qed.

(** X3. The sample of a metric depends on the pool only through the answer
    to that metric's own statement: two passes in worlds that agree on it
    carry the same value for the metric, whatever happens to the other
    statements. *)
Theorem sample_depends_on_own_statement_only (conn : Pgxpool.Ref) (w1 w2 : World)
    (m : metric) :
  pools w1 conn (sql_of m) = pools w2 conn (sql_of m) ->
  let c := Metrics.NewDbStatsCollector conn in
  exists ms1 ms2 w1' w2',
    Metrics.Collect c [] w1 = (Done ms1, w1') /\
    Metrics.Collect c [] w2 = (Done ms2, w2') /\
    values_for (desc_of c m) ms1 = values_for (desc_of c m) ms2.
Proof.
  intros A c.
  exists (samples c (pools w1 conn)), (samples c (pools w2 conn)).
  eexists. eexists.
  split; [apply Collect_New_run|].
  split; [apply Collect_New_run|].
  unfold c. rewrite !values_for_samples, A. reflexivity.
Qed.

(** The statement of the new-assets count times out in one world and not
    in the other; the sample of the quotes without FIGI is the same. *)
Lemma sample_depends_on_own_statement_only_witness :
  let w2 := blank (Fixture.timing_out (sql_of M_assetsNew)) in
  let c := Metrics.NewDbStatsCollector Fixture.conn in
  pools Fixture.world Fixture.conn (sql_of M_eodNoFigi)
    = pools w2 Fixture.conn (sql_of M_eodNoFigi) /\
  fst (Metrics.Collect c [] Fixture.world) <> fst (Metrics.Collect c [] w2) /\
  exists ms1 ms2 w1' w2',
    Metrics.Collect c [] Fixture.world = (Done ms1, w1') /\
    Metrics.Collect c [] w2 = (Done ms2, w2') /\
    values_for (desc_of c M_eodNoFigi) ms1 = values_for (desc_of c M_eodNoFigi) ms2.
Proof.
  intros w2 c.
  assert (A : pools Fixture.world Fixture.conn (sql_of M_eodNoFigi)
              = pools w2 Fixture.conn (sql_of M_eodNoFigi)) by reflexivity.
  split; [exact A|].
  split; [vm_compute; discriminate|].
  exact (sample_depends_on_own_statement_only Fixture.conn Fixture.world w2 M_eodNoFigi A).
Defined.

(** X4. In the samples, a failed query cannot be told from a count of
    zero: a world in which a statement fails and a world in which it is
    answered with 0, the other statements being answered alike, give the
    same samples. *)
Theorem failure_looks_like_zero (conn : Pgxpool.Ref) (w1 w2 : World) (m : metric)
    (e : error) :
  pools w1 conn (sql_of m) = Pgxpool.ScanFailed e ->
  pools w2 conn (sql_of m) = Pgxpool.Scanned 0 ->
  (forall m', sql_of m' <> sql_of m ->
              pools w1 conn (sql_of m') = pools w2 conn (sql_of m')) ->
  fst (Metrics.Collect (Metrics.NewDbStatsCollector conn) [] w1)
    = fst (Metrics.Collect (Metrics.NewDbStatsCollector conn) [] w2).
Proof.
  intros F Z O. rewrite !Collect_New_run. cbn [fst app]. f_equal.
  apply samples_value_ext. intros m'.
  destruct (string_dec (sql_of m') (sql_of m)) as [E|N].
  - rewrite E, F, Z. reflexivity.
  - rewrite (O m' N). reflexivity.
Qed.

(** No asset of the fixture lacks a CUSIP: the pass in which that
    statement times out emits what the healthy pass emits, though it logs
    an error. *)
Lemma failure_looks_like_zero_witness :
  let w1 := blank (Fixture.timing_out (sql_of M_assetsNoCusip)) in
  let c := Metrics.NewDbStatsCollector Fixture.conn in
  pools w1 Fixture.conn (sql_of M_assetsNoCusip)
    = Pgxpool.ScanFailed "timeout: context deadline exceeded" /\
  pools Fixture.world Fixture.conn (sql_of M_assetsNoCusip) = Pgxpool.Scanned 0 /\
  fst (Metrics.Collect c [] w1) = fst (Metrics.Collect c [] Fixture.world) /\
  records (trace (snd (Metrics.Collect c [] w1)))
    <> records (trace (snd (Metrics.Collect c [] Fixture.world))).
Proof.
  intros w1 c.
  assert (F : pools w1 Fixture.conn (sql_of M_assetsNoCusip)
              = Pgxpool.ScanFailed "timeout: context deadline exceeded") by reflexivity.
  assert (Z : pools Fixture.world Fixture.conn (sql_of M_assetsNoCusip)
              = Pgxpool.Scanned 0) by reflexivity.
  split; [exact F|].
  split; [exact Z|].
  split.
  - apply (failure_looks_like_zero Fixture.conn w1 Fixture.world M_assetsNoCusip _ F Z).
    intros m' N. destruct m'; try reflexivity; contradiction N; reflexivity.
  - vm_compute. discriminate.
Defined.

(** X5. A pass acts on the world only by querying and by logging: what it
    adds to the trace are queries and log records, so it never connects,
    registers, serves or closes the pool; the pool states, the connection
    outcomes and the configuration are as before. What was sent on the
    channel before the pass is still there, in front of the nine samples. *)
Theorem Collect_only_queries_and_logs (conn : Pgxpool.Ref)
    (ch : Chan Prometheus.Metric) (w : World) :
  exists t ms,
    Metrics.Collect (Metrics.NewDbStatsCollector conn) ch w
      = (Done (ch ++ ms)%list, mkWorld (pools w) (dial w) (config_string w)
                                       (config_int w) (trace w ++ t)) /\
    List.length ms = 9%nat /\
    Forall (fun ev => match ev with
                      | EvQuery c _ => c = conn
                      | EvLog r => Zerolog.level r = Zerolog.ErrorLevel
                      | _ => False
                      end) t.
Proof.
  exists (pass_trace conn (pools w conn)),
         (samples (Metrics.NewDbStatsCollector conn) (pools w conn)).
  split; [apply Collect_New_run|].
  split; [reflexivity|].
  unfold pass_trace. generalize catalogue as l.
  induction l as [|m l IH]; [constructor|].
  simpl flat_map. apply Forall_app. split; [|exact IH].
  destruct (pools w conn (sql_of m)); repeat constructor.
Qed.

(* ===================================================================== *)
(** ** Registration and startup *)
(* ===================================================================== *)

(** X6. The descriptors made by [NewDbStatsCollector] do not depend on the
    pool: they carry nine different valid metric names under the prefix
    [pvdb_], no labels and no construction error. So a fresh registry
    accepts the collector, and a registry that holds one refuses a second
    made for any other pool: [MustRegister] panics. *)
Theorem one_dbStatsCollector_per_registry (conn conn' : Pgxpool.Ref) (w : World) :
  let ds := map (desc_of (Metrics.NewDbStatsCollector conn)) catalogue in
  map (desc_of (Metrics.NewDbStatsCollector conn')) catalogue = ds /\
  NoDup (map Prometheus.fqName ds) /\
  Forall (fun d => Prometheus.IsValidMetricName (Prometheus.fqName d) = true /\
                   prefix "pvdb_" (Prometheus.fqName d) = true /\
                   Prometheus.variableLabels d = [] /\
                   Prometheus.constLabels d = [] /\
                   Prometheus.err d = None) ds /\
  Registry.MustRegister Registry.NewRegistry (Metrics.NewDbStatsCollector conn) w
    = (Done ds, extend [EvRegister ds] w) /\
  Registry.MustRegister ds (Metrics.NewDbStatsCollector conn') w
    = (Panicked "descriptor already exists", w).
Proof.
  intros ds.
  split; [reflexivity|].
  split.
  { simpl.
    repeat (constructor;
            [simpl; intros H; repeat destruct H as [H|H];
             first [discriminate H | contradiction]|]).
    constructor. }
  split; [repeat constructor|].
  split; [apply MustRegister_fresh|].
  unfold Registry.MustRegister.
  rewrite (bind_run _ _ _ _ _ (Describe_run (Metrics.NewDbStatsCollector conn') [] w)).
  reflexivity.
Qed.



(** X8. Whatever [Connect] returns, [Run] sends no query: registration
    and startup do not read the database. It starts by connecting to the
    configured DSN, logs an error exactly when the connection failed, and
    comes to serve in both cases. After a successful connect it ends by
    closing the pool it got and returns normally; after a failed one there
    is no pool to close: the deferred [Close] panics on the nil pointer
    when [Run] is left, and serving is the last thing [Run] did. *)
Theorem Run_never_queries (w : World) :
  exists t,
    snd (Cmd.Run w) = extend t w /\
    queries t = [] /\
    hd_error t = Some (EvConnect (config_string w "database.url")) /\
    In (EvListenAndServe (":" ++ sprintf_d (config_int w "server.port"))) t /\
    existsb is_error_record (records t)
      = match snd (dial w (config_string w "database.url")) with
        | Some _ => true
        | None => false
        end /\
    fst (Cmd.Run w)
      = match snd (dial w (config_string w "database.url")) with
        | Some _ => Panicked nil_dereference
        | None => Done tt
        end /\
    last t (EvConnect "")
      = match snd (dial w (config_string w "database.url")) with
        | Some _ => EvListenAndServe (":" ++ sprintf_d (config_int w "server.port"))
        | None => EvClose (fst (dial w (config_string w "database.url")))
        end.
Proof.
  rewrite Run_trace.
  destruct (dial w (config_string w "database.url")) as [pool [e|]];
    eexists; (split; [reflexivity|]); cbn [fst snd].
  - split; [reflexivity|]. split; [reflexivity|].
    split; [do 5 right; left; reflexivity|].
    split; [reflexivity|]. split; reflexivity.
  - split; [reflexivity|]. split; [reflexivity|].
    split; [do 4 right; left; reflexivity|].
    split; [reflexivity|]. split; reflexivity.
Qed.

(* ===================================================================== *)
(** ** keysAndValuesToEvent and CronLog *)
(* ===================================================================== *)
Section KeysAndValues.

Import Zlog.
Import CmdLog.

Lemma list_pair_ind {A} (P : list A -> Prop) :
  P [] -> (forall x, P [x]) -> (forall x y l, P l -> P (x :: y :: l)) ->
  forall l, P l.
Proof.
  intros H0 H1 H2 l.
  enough (P l /\ forall x, P (x :: l)) by tauto.
  induction l as [|y l [IH1 IH2]]; split; auto.
Qed.

Lemma odd_after_even idx : (idx mod 2 = 0 -> S idx mod 2 = 1)%nat.
Proof.
  intros H.
  pose proof (Nat.Div0.div_mod idx 2) as D.
  pose proof (Nat.Div0.div_mod (S idx) 2) as D'.
  pose proof (Nat.mod_upper_bound (S idx) 2 ltac:(discriminate)) as B.
  lia.
Qed.

Lemma even_after_odd idx : (idx mod 2 = 0 -> S (S idx) mod 2 = 0)%nat.
Proof.
  intros H.
  pose proof (Nat.Div0.div_mod idx 2) as D.
  pose proof (Nat.Div0.div_mod (S (S idx)) 2) as D'.
  pose proof (Nat.mod_upper_bound (S (S idx)) 2 ltac:(discriminate)) as B.
  lia.
Qed.

(** At an even index, the loop adds the fields of [pairs_of], whatever key
    is current. *)
Lemma range_loop_even k :
  forall event currKey idx,
    (idx mod 2 = 0)%nat ->
    range_loop event currKey idx k
      = mkEvent (level event) (fields event ++ pairs_of k).
Proof.
  induction k as [|x|x v k IH] using list_pair_ind; intros event currKey idx E.
  - destruct event. simpl. rewrite app_nil_r. reflexivity.
  - destruct event. cbn [range_loop]. rewrite E. cbn [Nat.eqb pairs_of level fields].
    rewrite app_nil_r. destruct x; reflexivity.
  - cbn [range_loop]. rewrite E, (odd_after_even idx E). cbn [Nat.eqb].
    pose proof (even_after_odd idx E) as E2.
    destruct x as [|s|n|b]; cbn [negb String.eqb pairs_of];
      rewrite !IH by exact E2; try reflexivity.
    destruct (String.eqb s ""); cbn [negb]; [reflexivity|].
    cbn [Interface level fields]. rewrite <- app_assoc. reflexivity.
Qed.

Lemma keysAndValuesToEvent_pairs event k :
  keysAndValuesToEvent event k = mkEvent (level event) (fields event ++ pairs_of k).
Proof. apply range_loop_even. reflexivity. Qed.

Lemma pairs_of_spell pairs : pairs_of (spell pairs) = filter named pairs.
Proof.
  induction pairs as [|[key val] pairs IH]; [reflexivity|].
  unfold spell in *. cbn [flat_map app fst snd pairs_of filter].
  rewrite IH. change (named (key, val)) with (negb (String.eqb key "")).
  destruct (String.eqb key ""); reflexivity.
Qed.

Lemma pairs_of_app k1 :
  forall k2, Nat.even (List.length k1) = true ->
             pairs_of (k1 ++ k2) = (pairs_of k1 ++ pairs_of k2)%list.
Proof.
  induction k1 as [|x|x v k1 IH] using list_pair_ind; intros k2 E.
  - reflexivity.
  - discriminate E.
  - cbn [app pairs_of]. rewrite (IH k2 E).
    destruct x as [|s|n|b]; try reflexivity.
    destruct (String.eqb s ""); reflexivity.
Qed.

Lemma pairs_of_length k : (List.length (pairs_of k) <= List.length k / 2)%nat.
Proof.
  induction k as [|x|x v k IH] using list_pair_ind.
  - simpl. lia.
  - simpl. lia.
  - assert (D : (List.length (x :: v :: k) / 2 = S (List.length k / 2))%nat).
    { cbn [List.length].
      change (S (S (List.length k))) with (1 * 2 + List.length k)%nat.
      rewrite Nat.div_add_l by discriminate. lia. }
    rewrite D. cbn [pairs_of].
    destruct x as [|s|n|b]; try lia.
    destruct (String.eqb s ""); cbn [List.length]; lia.
Qed.

Lemma pairs_of_named k :
  Forall (fun kv => named kv = true /\ In (VString (fst kv)) k /\ In (snd kv) k) (pairs_of k).
Proof.
  induction k as [|x|x v k IH] using list_pair_ind; try constructor.
  assert (IH' : Forall (fun kv => named kv = true /\ In (VString (fst kv)) (x :: v :: k)
                                  /\ In (snd kv) (x :: v :: k)) (pairs_of k)).
  { eapply Forall_impl; [|exact IH]. intros kv (N & I1 & I2).
    split; [exact N|]. split; right; right; assumption. }
  cbn [pairs_of]. destruct x as [|s|n|b]; try exact IH'.
  destruct (String.eqb s "") eqn:Es; [exact IH'|].
  constructor; [|exact IH'].
  unfold named. cbn [fst snd]. rewrite Es.
  split; [reflexivity|]. split; [left; reflexivity | right; left; reflexivity].
Qed.

End KeysAndValues.

(** X9. Spelling out pairs and reading them back: for key-value pairs given
    as [key1, val1, key2, val2, ...], [keysAndValuesToEvent] adds to the
    event exactly the pairs whose key is not empty, in order, after the
    fields the event had. *)
Theorem keysAndValuesToEvent_spell (event : Zlog.Event)
    (pairs : list (string * Zlog.any)) :
  CmdLog.keysAndValuesToEvent event (CmdLog.spell pairs)
    = Zlog.mkEvent (Zlog.level event)
                   (Zlog.fields event ++ filter CmdLog.named pairs).
Proof.
  rewrite keysAndValuesToEvent_pairs, pairs_of_spell. reflexivity.
Qed.

(** X10. A key without a value is dropped: one more element after a list of
    even length changes nothing. *)
Theorem keysAndValuesToEvent_dangling_key (event : Zlog.Event) (k : list Zlog.any)
    (x : Zlog.any) :
  Nat.even (List.length k) = true ->
  CmdLog.keysAndValuesToEvent event (k ++ [x]) = CmdLog.keysAndValuesToEvent event k.
Proof.
  intros E. rewrite !keysAndValuesToEvent_pairs, (pairs_of_app k [x] E).
  simpl. rewrite app_nil_r. reflexivity.
Qed.

Lemma keysAndValuesToEvent_dangling_key_witness :
  Nat.even (List.length [Zlog.VString "job"; Zlog.VInt 7]) = true /\
  CmdLog.keysAndValuesToEvent (Zlog.newEvent Zlog.InfoLevel)
    ([Zlog.VString "job"; Zlog.VInt 7] ++ [Zlog.VString "next"])
  = Zlog.mkEvent Zlog.InfoLevel [("job", Zlog.VInt 7)].
Proof.
  split; [reflexivity|].
  rewrite (keysAndValuesToEvent_dangling_key (Zlog.newEvent Zlog.InfoLevel)
             [Zlog.VString "job"; Zlog.VInt 7] (Zlog.VString "next") eq_refl).
  reflexivity.
Defined.

(** X11. Whole pairs can be handed over in pieces: after an even number of
    elements the loop starts afresh, so converting [k1 ++ k2] is converting
    [k1] and then [k2] on the event obtained. *)
Theorem keysAndValuesToEvent_app (event : Zlog.Event) (k1 k2 : list Zlog.any) :
  Nat.even (List.length k1) = true ->
  CmdLog.keysAndValuesToEvent event (k1 ++ k2)
    = CmdLog.keysAndValuesToEvent (CmdLog.keysAndValuesToEvent event k1) k2.
Proof.
  intros E. rewrite !keysAndValuesToEvent_pairs, (pairs_of_app k1 k2 E).
  cbn [Zlog.level Zlog.fields]. rewrite app_assoc. reflexivity.
Qed.

Lemma keysAndValuesToEvent_app_witness :
  Nat.even (List.length [Zlog.VString "job"; Zlog.VInt 7]) = true /\
  CmdLog.keysAndValuesToEvent (Zlog.newEvent Zlog.InfoLevel)
    ([Zlog.VString "job"; Zlog.VInt 7] ++ [Zlog.VString "ok"; Zlog.VBool true])
  = CmdLog.keysAndValuesToEvent
      (Zlog.mkEvent Zlog.InfoLevel [("job", Zlog.VInt 7)])
      [Zlog.VString "ok"; Zlog.VBool true].
Proof.
  split; [reflexivity|].
  rewrite (keysAndValuesToEvent_app (Zlog.newEvent Zlog.InfoLevel)
             [Zlog.VString "job"; Zlog.VInt 7] [Zlog.VString "ok"; Zlog.VBool true]
             eq_refl).
  reflexivity.
Defined.

(** X12. A key that is not a string, or is the empty string, loses its
    value and nothing else: the pair can be taken out of the list without
    changing the result. *)
Theorem keysAndValuesToEvent_bad_key (event : Zlog.Event) (k1 k2 : list Zlog.any)
    (x v : Zlog.any) :
  Nat.even (List.length k1) = true ->
  CmdLog.no_key x = true ->
  CmdLog.keysAndValuesToEvent event (k1 ++ x :: v :: k2)
    = CmdLog.keysAndValuesToEvent event (k1 ++ k2).
Proof.
  intros E B. rewrite !keysAndValuesToEvent_pairs, !(pairs_of_app k1 _ E).
  cbn [pairs_of]. destruct x as [|s|n|b]; try reflexivity.
  simpl in B. rewrite B. reflexivity.
Qed.

Lemma keysAndValuesToEvent_bad_key_witness :
  Nat.even (List.length [Zlog.VString "job"; Zlog.VInt 7]) = true /\
  CmdLog.no_key (Zlog.VInt 3) = true /\
  CmdLog.keysAndValuesToEvent (Zlog.newEvent Zlog.InfoLevel)
    ([Zlog.VString "job"; Zlog.VInt 7]
     ++ Zlog.VInt 3 :: Zlog.VString "lost" :: [Zlog.VString "ok"; Zlog.VBool true])
  = Zlog.mkEvent Zlog.InfoLevel [("job", Zlog.VInt 7); ("ok", Zlog.VBool true)].
Proof.
  split; [reflexivity|]. split; [reflexivity|].
  rewrite (keysAndValuesToEvent_bad_key (Zlog.newEvent Zlog.InfoLevel)
             [Zlog.VString "job"; Zlog.VInt 7] [Zlog.VString "ok"; Zlog.VBool true]
             (Zlog.VInt 3) (Zlog.VString "lost") eq_refl eq_refl).
  reflexivity.
Defined.

(** X13. [keysAndValuesToEvent] only adds fields: the level of the event and
    the fields it had stay, in front. It adds at most one field for two
    elements of the list, each under a non-empty key; key and value both
    occur in the list. *)
Theorem keysAndValuesToEvent_only_adds (event : Zlog.Event) (k : list Zlog.any) :
  exists added,
    CmdLog.keysAndValuesToEvent event k
      = Zlog.mkEvent (Zlog.level event) (Zlog.fields event ++ added) /\
    (List.length added <= List.length k / 2)%nat /\
    Forall (fun kv => CmdLog.named kv = true /\
                      In (Zlog.VString (fst kv)) k /\ In (snd kv) k) added.
Proof.
  exists (pairs_of k).
  split; [apply keysAndValuesToEvent_pairs|].
  split; [apply pairs_of_length | apply pairs_of_named].
Qed.

(** X14. [CronLog.Info] and [CronLog.Error] write one line each, after the
    lines already written and with the writer the logger has: at level
    info or error, with the given message and the fields of the named
    pairs. [Error] puts the error after those fields, and adds no error
    field for a nil error. *)
Theorem CronLog_writes_one_line (err : option error) (msg : string)
    (pairs : list (string * Zlog.any)) (lg : Zlog.Logger) :
  CmdLog.Info msg (CmdLog.spell pairs) lg
    = Zlog.mkLogger (Zlog.console lg)
        (Zlog.written lg ++
         [Zlog.mkLine Zlog.InfoLevel (filter CmdLog.named pairs) msg (Zlog.console lg)]) /\
  CmdLog.Error err msg (CmdLog.spell pairs) lg
    = Zlog.mkLogger (Zlog.console lg)
        (Zlog.written lg ++
         [Zlog.mkLine Zlog.ErrorLevel
            (filter CmdLog.named pairs ++
             match err with
             | Some e => [("error", Zlog.VString e)]
             | None => []
             end)
            msg (Zlog.console lg)]).
Proof.
  unfold CmdLog.Info, CmdLog.Error.
  rewrite !keysAndValuesToEvent_pairs, pairs_of_spell.
  split; [reflexivity|].
  destruct err as [e|]; cbn; rewrite ?app_nil_r; reflexivity.
Qed.

(* ===================================================================== *)
(** ** The initializers *)
(* ===================================================================== *)
Section Initializers.

Import CmdInit.

Lemma with_calls_app c1 c2 p : with_calls c2 (with_calls c1 p) = with_calls (c1 ++ c2) p.
Proof. unfold with_calls. simpl. rewrite <- app_assoc. reflexivity. Qed.

Lemma call_run c p : call c p = (Returned tt, with_calls [c] p).
Proof. reflexivity. Qed.

Lemma init_bind_run {A B} (m : Init A) (k : A -> Init B) p a p' :
  m p = (Returned a, p') -> init_bind m k p = k a p'.
Proof. intros E. unfold init_bind. rewrite E. reflexivity. Qed.

(** What [initConfig] does once the search for the file is set up. *)
Lemma read_config_run h p :
  (init_bind (call AutomaticEnv) (fun _ =>
     fun p =>
       let settings := viper p in
       (init_bind (call ReadInConfig) (fun _ =>
          match read_in_config h settings with
          | None =>
              log (Zlog.Msg (Zlog.Str (Zlog.newEvent Zlog.DebugLevel)
                               "ConfigFile" (ConfigFileUsed h (settings ++ [ReadInConfig])))
                            "Loaded config file")
          | Some err =>
              log (Zlog.Msg (Zlog.Err (Zlog.newEvent Zlog.ErrorLevel) (Some err))
                            "error reading config file")
          end)) p)) p
  = (Returned tt,
     with_line (config_line h (viper p ++ [AutomaticEnv]) (Zlog.console (logger p)))
               (with_calls [AutomaticEnv; ReadInConfig] p)).
Proof.
  unfold init_bind, call, config_line. cbn [viper logger stderr].
  destruct (read_in_config h (viper p ++ [AutomaticEnv]));
    unfold log, with_line, with_calls; cbn; rewrite <- !app_assoc; reflexivity.
Qed.

Lemma initConfig_flag h p :
  String.eqb (cfgFile h) "" = false ->
  initConfig h p =
    (Returned tt,
     with_line (config_line h (viper p ++ [SetConfigFile (cfgFile h); AutomaticEnv])
                            (Zlog.console (logger p)))
               (with_calls [SetConfigFile (cfgFile h); AutomaticEnv; ReadInConfig] p)).
Proof.
  intros F. unfold initConfig. rewrite F. cbn [negb].
  unfold init_bind at 1. rewrite call_run.
  rewrite read_config_run, with_calls_app.
  cbn [with_calls viper logger app]. rewrite <- app_assoc. reflexivity.
Qed.

Lemma initConfig_search h p home :
  String.eqb (cfgFile h) "" = true ->
  UserHomeDir h = (home, None) ->
  initConfig h p =
    (Returned tt,
     with_line
       (config_line h
          (viper p ++ [ AddConfigPath "/etc/"; AddConfigPath (home ++ "/.config");
                        AddConfigPath "."; SetConfigType "toml";
                        SetConfigName "pvdb-metrics"; AutomaticEnv ])
          (Zlog.console (logger p)))
       (with_calls [ AddConfigPath "/etc/"; AddConfigPath (home ++ "/.config");
                     AddConfigPath "."; SetConfigType "toml";
                     SetConfigName "pvdb-metrics"; AutomaticEnv; ReadInConfig ] p)).
Proof.
  intros F H. unfold initConfig. rewrite F, H. cbn [negb CheckErr].
  rewrite (init_bind_run _ _ p tt
             (with_calls [ AddConfigPath "/etc/"; AddConfigPath (home ++ "/.config");
                           AddConfigPath "."; SetConfigType "toml";
                           SetConfigName "pvdb-metrics" ] p))
    by (unfold init_bind, init_ret, call, with_calls; cbn [viper logger stderr];
        rewrite <- !app_assoc; reflexivity).
  rewrite read_config_run, with_calls_app.
  cbn [with_calls viper logger app]. rewrite <- app_assoc. reflexivity.
Qed.

Lemma initConfig_no_home h p home e :
  String.eqb (cfgFile h) "" = true ->
  UserHomeDir h = (home, Some e) ->
  initConfig h p =
    (Exited 1, mkProcess (viper p) (logger p) (stderr p ++ ["Error: " ++ e])).
Proof.
  intros F H. unfold initConfig. rewrite F, H. reflexivity.
Qed.

Lemma config_line_console h settings c : Zlog.line_console (config_line h settings c) = c.
Proof. unfold config_line. destruct (read_in_config h settings); reflexivity. Qed.

Lemma initConfig_exits_or_returns h p :
  match initConfig h p with
  | (Returned _, p') =>
      exists line,
        Zlog.written (logger p') = (Zlog.written (logger p) ++ [line])%list /\
        Zlog.console (logger p') = Zlog.console (logger p) /\
        Zlog.line_console line = Zlog.console (logger p)
  | (Exited code, p') => code = 1 /\ logger p' = logger p
  end.
Proof.
  destruct (String.eqb (cfgFile h) "") eqn:F.
  - destruct (UserHomeDir h) as [home [e|]] eqn:H.
    + rewrite (initConfig_no_home h p home e F H). split; reflexivity.
    + rewrite (initConfig_search h p home F H).
      eexists. split; [reflexivity|]. split; [reflexivity|apply config_line_console].
  - rewrite (initConfig_flag h p F).
    eexists. split; [reflexivity|]. split; [reflexivity|apply config_line_console].
Qed.

End Initializers.

(** X15. [initConfig] ends the process in one case only: no [--config] was
    given and the home directory cannot be determined; it then exits with
    status 1 after printing the error, before asking anything of viper and
    without logging. In every other case it returns, having called
    [AutomaticEnv] and then [ReadInConfig] last and written exactly one
    line: an unreadable configuration is logged at error level, with the
    error attached, and is not fatal. *)
Theorem initConfig_exits_only_without_home (h : CmdInit.Host) (p : CmdInit.Process) :
  match CmdInit.initConfig h p with
  | (CmdInit.Exited code, p') =>
      code = 1 /\
      CmdInit.cfgFile h = "" /\
      (exists e, snd (CmdInit.UserHomeDir h) = Some e /\
                 CmdInit.stderr p' = (CmdInit.stderr p ++ [("Error: " ++ e)%string])%list) /\
      CmdInit.viper p' = CmdInit.viper p /\
      CmdInit.logger p' = CmdInit.logger p
  | (CmdInit.Returned _, p') =>
      exists calls,
        CmdInit.viper p'
          = (CmdInit.viper p ++ calls ++ [CmdInit.AutomaticEnv; CmdInit.ReadInConfig])%list /\
        Zlog.written (CmdInit.logger p')
          = (Zlog.written (CmdInit.logger p) ++
             [config_line h (CmdInit.viper p ++ calls ++ [CmdInit.AutomaticEnv])
                          (Zlog.console (CmdInit.logger p))])%list /\
        Zlog.console (CmdInit.logger p') = Zlog.console (CmdInit.logger p) /\
        CmdInit.stderr p' = CmdInit.stderr p
  end.
Proof.
  destruct (String.eqb (CmdInit.cfgFile h) "") eqn:F.
  - destruct (CmdInit.UserHomeDir h) as [home [e|]] eqn:H.
    + rewrite (initConfig_no_home h p home e F H).
      apply String.eqb_eq in F.
      split; [reflexivity|]. split; [exact F|].
      split; [exists e; split; reflexivity|]. split; reflexivity.
    + rewrite (initConfig_search h p home F H).
      eexists [_; _; _; _; _].
      cbn [with_line with_calls CmdInit.viper CmdInit.logger CmdInit.stderr
           Zlog.written Zlog.console app].
      repeat split.
  - rewrite (initConfig_flag h p F).
    exists [CmdInit.SetConfigFile (CmdInit.cfgFile h)].
    cbn [with_line with_calls CmdInit.viper CmdInit.logger CmdInit.stderr
         Zlog.written Zlog.console app].
    repeat split.
Qed.

(** X16. With [--config], the file named is the only setting made before
    the environment and the file are read: no search path, type or name is
    set, and the home directory plays no part, so [initConfig] goes through
    even where it cannot be determined. *)
Theorem initConfig_with_config_flag (h : CmdInit.Host) (p : CmdInit.Process)
    (home : string * option error) :
  String.eqb (CmdInit.cfgFile h) "" = false ->
  let h' := CmdInit.mkHost (CmdInit.cfgFile h) home (CmdInit.read_in_config h)
              (CmdInit.ConfigFileUsed h) (CmdInit.log_json h) in
  CmdInit.initConfig h' p = CmdInit.initConfig h p /\
  exists p',
    CmdInit.initConfig h p = (CmdInit.Returned tt, p') /\
    CmdInit.viper p'
      = (CmdInit.viper p ++ [ CmdInit.SetConfigFile (CmdInit.cfgFile h);
                              CmdInit.AutomaticEnv; CmdInit.ReadInConfig ])%list.
Proof.
  intros F h'.
  rewrite (initConfig_flag h p F), (initConfig_flag h' p F).
  split; [reflexivity|].
  eexists. split; reflexivity.
Qed.

Lemma initConfig_with_config_flag_witness :
  let h := CmdInit.mkHost "/run/pvdb.toml" ("", Some "$HOME is not defined")
             (fun _ => Some "open /run/pvdb.toml: no such file or directory")
             (fun _ => "") false in
  String.eqb (CmdInit.cfgFile h) "" = false /\
  CmdInit.initConfig h CmdInit.fresh
    = (CmdInit.Returned tt,
       CmdInit.mkProcess
         [ CmdInit.SetConfigFile "/run/pvdb.toml"; CmdInit.AutomaticEnv;
           CmdInit.ReadInConfig ]
         (Zlog.mkLogger false
            [Zlog.mkLine Zlog.ErrorLevel
               [("error", Zlog.VString "open /run/pvdb.toml: no such file or directory")]
               "error reading config file" false])
         []).
Proof.
  intros h.
  assert (F : String.eqb (CmdInit.cfgFile h) "" = false) by reflexivity.
  split; [exact F|].
  destruct (initConfig_with_config_flag h CmdInit.fresh ("/home/pv", None) F)
    as [_ (p' & R & _)].
  rewrite R. f_equal. vm_compute in R. injection R as <-. reflexivity.
Defined.

(** X17. The initializers run [initConfig] before [initLog]: when they
    return, the logger writes to the console exactly when [log.json] is
    off, but the one line written so far, that of [initConfig], went to
    the writer the logger had before, whatever [log.json] says. When
    [initConfig] exits, [initLog] is not run. *)
Theorem initializers_log_before_console (h : CmdInit.Host) (p : CmdInit.Process) :
  match CmdInit.initializers h p with
  | (CmdInit.Returned _, p') =>
      Zlog.console (CmdInit.logger p')
        = (if CmdInit.log_json h then Zlog.console (CmdInit.logger p) else true) /\
      exists line,
        Zlog.written (CmdInit.logger p')
          = (Zlog.written (CmdInit.logger p) ++ [line])%list /\
        Zlog.line_console line = Zlog.console (CmdInit.logger p)
  | (CmdInit.Exited code, p') =>
      code = 1 /\ CmdInit.logger p' = CmdInit.logger p
  end.
Proof.
  unfold CmdInit.initializers, CmdInit.init_bind.
  pose proof (initConfig_exits_or_returns h p) as I.
  destruct (CmdInit.initConfig h p) as [[[]|code] p1].
  - destruct I as (line & W & C & L).
    unfold CmdInit.initLog.
    destruct (CmdInit.log_json h); cbn.
    + split; [exact C|]. exists line. split; assumption.
    + split; [reflexivity|]. exists line. split; assumption.
  - exact I.
Qed.

(* ===================================================================== *)
(** ** Counts below 2^53 are converted exactly *)
(* ===================================================================== *)
Section Exact.

Lemma digits2_size p : digits2_pos p = Pos.size p.
Proof. induction p as [p IH|p IH|]; simpl; rewrite ?IH; reflexivity. Qed.

Lemma size_bound p k : 0 <= k -> Zpos p < 2 ^ k -> Zpos (Pos.size p) <= k.
Proof.
  intros K B.
  pose proof (Pos.size_le p) as L.
  apply Pos2Z.pos_le_pos in L. rewrite Pos2Z.inj_pow in L.
  change (Zpos p~0) with (2 * Zpos p) in L.
  assert (P : 2 ^ Zpos (Pos.size p) < 2 ^ (k + 1)).
  { rewrite Z.pow_add_r by lia. change (2 ^ 1) with 2. lia. }
  apply Z.pow_lt_mono_r_iff in P; lia.
Qed.

Lemma iter_xO_val k : forall p, Zpos (Pos.iter xO p k) = Zpos p * 2 ^ Zpos k.
Proof.
  induction k as [|k IH] using Pos.peano_ind; intros p.
  - simpl. lia.
  - rewrite Pos.iter_succ, Pos2Z.inj_succ, Z.pow_succ_r by lia.
    change (Zpos (Pos.iter xO p k)~0) with (2 * Zpos (Pos.iter xO p k)).
    rewrite IH. lia.
Qed.

Lemma iter_xO_size k : forall p, Pos.size (Pos.iter xO p k) = (Pos.size p + k)%positive.
Proof.
  induction k as [|k IH] using Pos.peano_ind; intros p.
  - simpl. lia.
  - rewrite Pos.iter_succ. simpl. rewrite IH. lia.
Qed.

(** A mantissa of exactly 53 digits with an exponent in range goes through
    rounding unchanged. *)
Lemma binary_round_aux_full s m e :
  Zpos (Pos.size m) = prec64 -> -52 <= e <= 0 ->
  binary_round_aux prec64 emax64 s (Zpos m) e loc_Exact = S754_finite s m e.
Proof.
  intros D E.
  assert (S0 : shr_fexp prec64 emax64 (Zpos m) e loc_Exact
               = (Build_shr_record (Zpos m) false false, e)).
  { unfold shr_fexp, shr, Zdigits2. rewrite digits2_size, D.
    unfold fexp, emin, prec64, emax64.
    replace (Z.max (53 + e - 53) (3 - 1024 - 53) - e) with 0 by lia.
    reflexivity. }
  unfold binary_round_aux. rewrite S0.
  cbn [shr_m loc_of_shr_record round_nearest_even]. rewrite S0.
  cbn [shr_m].
  replace (e <=? emax64 - prec64) with true; [reflexivity|].
  symmetry. apply Z.leb_le. unfold emax64, prec64. lia.
Qed.

Lemma binary_round_exact s p :
  Zpos p < 2 ^ 53 ->
  exists m e,
    binary_round prec64 emax64 s p 0 = S754_finite s m e /\
    -52 <= e <= 0 /\ Zpos m = Zpos p * 2 ^ (- e).
Proof.
  intros B.
  pose proof (size_bound p 53 ltac:(lia) B) as S.
  assert (S1 : 1 <= Zpos (Pos.size p)) by lia.
  unfold binary_round. rewrite digits2_size.
  unfold fexp, emin, shl_align, prec64, emax64.
  replace (Z.max (Zpos (Pos.size p) + 0 - 53) (3 - 1024 - 53) - 0)
    with (Zpos (Pos.size p) - 53) by lia.
  replace (Z.max (Zpos (Pos.size p) + 0 - 53) (3 - 1024 - 53))
    with (Zpos (Pos.size p) - 53) by lia.
  destruct (Zpos (Pos.size p) - 53) as [|d|d] eqn:Ed; [| lia |].
  - exists p, 0. split; [|split; [lia|simpl; lia]].
    apply binary_round_aux_full; [unfold prec64|]; lia.
  - exists (Pos.iter xO p d), (Zneg d).
    split; [|split].
    + apply binary_round_aux_full; [|lia].
      rewrite iter_xO_size, Pos2Z.inj_add. unfold prec64. lia.
    + lia.
    + rewrite iter_xO_val. reflexivity.
Qed.

End Exact.

Lemma float64_of_int_exact n :
  - 2 ^ 53 < n < 2 ^ 53 -> int_of_float64 (float64_of_int n) = Some n.
Proof.
  intros B. unfold float64_of_int, binary_normalize.
  destruct n as [|p|p]; [reflexivity| |].
  - destruct (binary_round_exact false p ltac:(lia)) as (m & e & R & E & V).
    rewrite R. unfold int_of_float64.
    destruct (Z.leb_spec 0 e) as [P|N].
    + replace e with 0 in * by lia. f_equal. simpl in V. lia.
    + rewrite V, Z.div_mul by (apply Z.pow_nonzero; lia). reflexivity.
  - destruct (binary_round_exact true p ltac:(lia)) as (m & e & R & E & V).
    rewrite R. unfold int_of_float64.
    destruct (Z.leb_spec 0 e) as [P|N].
    + replace e with 0 in * by lia. f_equal. simpl in V. lia.
    + rewrite V, Z.div_mul by (apply Z.pow_nonzero; lia). reflexivity.
Qed.

(** Above 2^53 the conversion rounds: two counts, one value. *)
Lemma float64_of_int_rounds_from_2_53 :
  float64_of_int (2 ^ 53 + 1) = float64_of_int (2 ^ 53).
Proof. reflexivity. Qed.

(** X18. A count below 2^53 in absolute value reaches the sample without
    rounding: the value a query function returns for it reads back as that
    very count. *)
Theorem query_fn_reports_count_exactly (m : metric) (conn : Pgxpool.Ref) (w : World)
    (cnt : Z) :
  pools w conn (sql_of m) = Pgxpool.Scanned cnt ->
  - 2 ^ 53 < cnt < 2 ^ 53 ->
  exists v w',
    query_fn m conn w = (Done v, w') /\
    int_of_float64 v = Some cnt.
Proof.
  intros A B. eexists. eexists.
  split; [apply query_fn_run|].
  rewrite A. apply float64_of_int_exact. exact B.
Qed.

Lemma query_fn_reports_count_exactly_witness :
  pools Fixture.world Fixture.conn (sql_of M_seekingAlphaDaily) = Pgxpool.Scanned 100 /\
  - 2 ^ 53 < 100 < 2 ^ 53 /\
  exists v w',
    query_fn M_seekingAlphaDaily Fixture.conn Fixture.world = (Done v, w') /\
    int_of_float64 v = Some 100.
Proof.
  assert (A : pools Fixture.world Fixture.conn (sql_of M_seekingAlphaDaily)
              = Pgxpool.Scanned 100) by reflexivity.
  assert (B : - 2 ^ 53 < 100 < 2 ^ 53) by (split; reflexivity).
  split; [exact A|]. split; [exact B|].
  exact (query_fn_reports_count_exactly M_seekingAlphaDaily Fixture.conn Fixture.world
           100 A B).
Defined.
